(** * Scholarship manager: record store and award calculator

    A shallow embedding of [ScholarshipManager] (updatabase.py): the SQLite
    backed record store ([insert_student], [get_all_scholarship_data]) and
    the award calculator ([calculate_award]), together with the summation
    loop of [update_report].

    - Python objects are modelled by the inductive [value]; dictionaries are
      finite maps from strings to values; a [str] is a string of ASCII
      characters.
    - Python's [float] is IEEE binary64, given by the executable
      specification [SpecFloat] at precision 53 and maximal exponent 1024.
    - Python code runs in a small state-and-exception monad [Py]: an
      exception leaves the state as it was when it was raised, and
      [try_except_Error] catches [sqlite3.Error] only.
    - The [sqlite3] connection is modelled by the durable table and the view
      of the open transaction; what the storage medium does to a call
      (statement or commit failing, with or without rollback) is a
      parameter of that call. *)

From Stdlib Require Import ZArith Lia Ascii String Sorted Floats.SpecFloat.
From stdpp Require Import base strings gmap list pretty.

Local Open Scope Z_scope.

(** ** Python values, exceptions and the execution monad *)

Inductive value : Type :=
  | VNone
  | VBool (b : bool)
  | VInt (z : Z)
  | VFloat (f : spec_float)
  | VStr (s : string).

#[global] Instance spec_float_eq_dec : EqDecision spec_float.
Proof. solve_decision. Defined.

#[global] Instance value_eq_dec : EqDecision value.
Proof. solve_decision. Defined.

Inductive exn : Type :=
  | KeyError (k : string)
  | TypeError
  | OverflowError
  | SqliteError.

Inductive outcome (A : Type) : Type :=
  | Returns (a : A)
  | Raises (e : exn).
Arguments Returns {A} a.
Arguments Raises {A} e.

(** A computation over a mutable state [S]. *)
Definition Py (S A : Type) : Type := S -> outcome A * S.

#[global] Instance Py_ret {S} : MRet (Py S) :=
  fun A a s => (Returns a, s).

#[global] Instance Py_bind {S} : MBind (Py S) :=
  fun A B f m s =>
    match m s with
    | (Returns a, s') => f a s'
    | (Raises e, s') => (Raises e, s')
    end.

Definition lift {S A} (o : outcome A) : Py S A := fun s => (o, s).

Definition outcome_bind {A B} (o : outcome A) (f : A -> outcome B) : outcome B :=
  match o with
  | Returns a => f a
  | Raises e => Raises e
  end.

#[global] Instance outcome_ret : MRet outcome := fun A a => Returns a.
#[global] Instance outcome_mbind : MBind outcome := fun A B f o => outcome_bind o f.

(** [try: body except Error: handler], for [sqlite3.Error]: any other
    exception passes through. *)
Definition try_except_Error {S A} (body handler : Py S A) : Py S A :=
  fun s =>
    match body s with
    | (Raises SqliteError, s') => handler s'
    | r => r
    end.

(** [bool(v)]: the truth value Python gives an object. *)
Definition truthy (v : value) : bool :=
  match v with
  | VNone => false
  | VBool b => b
  | VInt z => negb (z =? 0)
  | VFloat (S754_zero _) => false
  | VFloat _ => true
  | VStr s => negb (String.eqb s "")
  end.

(** [v == lit] for a string literal [lit]: none of [None], a [bool], an
    [int] or a [float] equals a [str]. *)
Definition eq_str (v : value) (lit : string) : bool :=
  match v with
  | VStr s => String.eqb s lit
  | _ => false
  end.

(** [d[k]] raises [KeyError] on a missing key; [d.get(k)] gives [None]. *)
Definition subscript {V} (d : gmap string V) (k : string) : outcome V :=
  match d !! k with
  | Some v => Returns v
  | None => Raises (KeyError k)
  end.

Definition dict_get (d : gmap string value) (k : string) : value :=
  default VNone (d !! k).

(** ** Binary64 arithmetic *)

Definition prec : Z := 53.
Definition emax : Z := 1024.

Definition SF64mul : spec_float -> spec_float -> spec_float := SFmul prec emax.
Definition SF64add : spec_float -> spec_float -> spec_float := SFadd prec emax.
Definition SF64sub : spec_float -> spec_float -> spec_float := SFsub prec emax.

(** The correctly rounded double nearest an integer. *)
Definition Z2SF (z : Z) : spec_float := binary_normalize prec emax z 0 false.

(** The integer a double stands for, when it is one. *)
Definition SF2Z (f : spec_float) : option Z :=
  match f with
  | S754_zero _ => Some 0
  | S754_finite s m e =>
      if 0 <=? e then Some (cond_Zopp s (Zpos m * 2 ^ e))
      else if Zpos m mod 2 ^ (- e) =? 0 then Some (cond_Zopp s (Zpos m / 2 ^ (- e)))
      else None
  | _ => None
  end.

(** [float(z)], as Python converts the [int] operand of a mixed operation:
    an integer beyond the range of a double raises [OverflowError]. *)
Definition float_of_int (z : Z) : outcome spec_float :=
  match Z2SF z with
  | S754_infinity _ => Raises OverflowError
  | f => Returns f
  end.

Definition int_mul_float (z : Z) (f : spec_float) : outcome spec_float :=
  outcome_bind (float_of_int z) (fun x => Returns (SF64mul x f)).

Definition int_sub_float (z : Z) (f : spec_float) : outcome spec_float :=
  outcome_bind (float_of_int z) (fun x => Returns (SF64sub x f)).

(** [a + b] on built-in values, as the report's running sums use it: a
    [bool] counts as the [int] 0 or 1, an [int] meeting a [float] is
    converted, two strings are concatenated. *)
Definition as_number (v : value) : value :=
  match v with
  | VBool b => VInt (if b then 1 else 0)
  | _ => v
  end.

Definition py_add (a b : value) : outcome value :=
  match as_number a, as_number b with
  | VInt x, VInt y => Returns (VInt (x + y))
  | VInt x, VFloat g =>
      outcome_bind (float_of_int x) (fun f => Returns (VFloat (SF64add f g)))
  | VFloat f, VInt y =>
      outcome_bind (float_of_int y) (fun g => Returns (VFloat (SF64add f g)))
  | VFloat f, VFloat g => Returns (VFloat (SF64add f g))
  | VStr s, VStr t => Returns (VStr (s +:+ t))
  | _, _ => Raises TypeError
  end.

(** ** Strings

    A [string] stands for a Python [str] of ASCII characters (code points
    below 128); the whitespace set and the case maps are Python's on that
    range. *)

Definition is_space (c : ascii) : bool :=
  let n := N_of_ascii c in
  ((9 <=? n) && (n <=? 13) || (28 <=? n) && (n <=? 32))%N.

Definition is_lower (c : ascii) : bool :=
  let n := N_of_ascii c in ((97 <=? n) && (n <=? 122))%N.

Definition is_upper (c : ascii) : bool :=
  let n := N_of_ascii c in ((65 <=? n) && (n <=? 90))%N.

Definition upper_char (c : ascii) : ascii :=
  if is_lower c then ascii_of_N (N_of_ascii c - 32) else c.

Definition lower_char (c : ascii) : ascii :=
  if is_upper c then ascii_of_N (N_of_ascii c + 32) else c.

Fixpoint str_map (f : ascii -> ascii) (s : string) : string :=
  match s with
  | EmptyString => EmptyString
  | String c r => String (f c) (str_map f r)
  end.

Definition upper (s : string) : string := str_map upper_char s.
Definition lower (s : string) : string := str_map lower_char s.

(** [s.capitalize()]: first character upper-cased, the rest lower-cased. *)
Definition capitalize (s : string) : string :=
  match s with
  | EmptyString => EmptyString
  | String c r => String (upper_char c) (lower r)
  end.

Fixpoint lstrip (s : string) : string :=
  match s with
  | EmptyString => EmptyString
  | String c r => if is_space c then lstrip r else s
  end.

Fixpoint rstrip (s : string) : string :=
  match s with
  | EmptyString => EmptyString
  | String c r =>
      match rstrip r with
      | EmptyString => if is_space c then EmptyString else String c EmptyString
      | r' => String c r'
      end
  end.

Definition strip (s : string) : string := rstrip (lstrip s).

Fixpoint all_space (s : string) : bool :=
  match s with
  | EmptyString => true
  | String c r => is_space c && all_space r
  end.



(** ** The award calculator *)

Definition DATABASE_NAME : string := "scholarship_awards.db".

(** [TAX_RATE = 0.05]: the double nearest to 1/20, 0x1.999999999999ap-5. *)
Definition TAX_RATE : spec_float := S754_finite false 7205759403792794 (-57).

Definition AWARD_ATTRIBUTES : gmap string Z :=
  {[ "well_dressed" := 10000;
     "general_gift" := 20000;
     "well_behaved" := 5000;
     "osun_state" := 15000;
     "female_monthly" := 1000 ]}.

(** [student.get(k)], a read of the dictionary the caller passed in. *)
Definition student_get (k : string) : Py (gmap string value) value :=
  fun student => (Returns (dict_get student k), student).

Definition calculate_award : Py (gmap string value) (gmap string value) :=
  total_award ← lift (subscript AWARD_ATTRIBUTES "general_gift");
  well_dressed ← student_get "well_dressed";
  total_award ←
    (if truthy well_dressed
     then a ← lift (subscript AWARD_ATTRIBUTES "well_dressed"); mret (total_award + a)
     else mret total_award);
  well_behaved ← student_get "well_behaved";
  total_award ←
    (if truthy well_behaved
     then a ← lift (subscript AWARD_ATTRIBUTES "well_behaved"); mret (total_award + a)
     else mret total_award);
  state ← student_get "state";
  total_award ←
    (if eq_str state "OSUN"
     then a ← lift (subscript AWARD_ATTRIBUTES "osun_state"); mret (total_award + a)
     else mret total_award);
  gender ← student_get "gender";
  total_award ←
    (if eq_str gender "Female"
     then a ← lift (subscript AWARD_ATTRIBUTES "female_monthly"); mret (total_award + a)
     else mret total_award);
  deduction ← lift (int_mul_float total_award TAX_RATE);
  net_payment ← lift (int_sub_float total_award deduction);
  mret ({[ "total_award" := VInt total_award;
           "deduction" := VFloat deduction;
           "net_payment" := VFloat net_payment ]} : gmap string value).

(** ** The record store

    The table [students] is a list of rows in rowid order.  A connection
    holds the durable table and, while a transaction is open, the table as
    that transaction sees it: [sqlite3] opens a transaction implicitly before
    an INSERT and keeps it open until [commit] succeeds or the engine rolls
    it back. Statements on the connection read the open transaction's view. *)

Record row : Type := Row {
  row_id : Z;
  row_name : string;
  row_gender : string;
  row_state : string;
  row_well_dressed : Z;
  row_well_behaved : Z
}.

Record connection : Type := Connection {
  committed : list row;
  pending : option (list row)
}.

Definition visible (c : connection) : list row :=
  default (committed c) (pending c).

(** The manager object: [self.conn], and the message boxes shown so far
    (title and the fixed part of the text). *)
Record manager : Type := Manager {
  conn : connection;
  dialogs : list (string * string)
}.

(** What the storage medium does to the calls of one method: [Some rb] makes
    the call raise [sqlite3.Error], [rb] telling whether the engine rolled
    the open transaction back on that error (it may for a full disk or an
    I/O error, it does not for a busy database).  [rowid_draws] are the
    candidates the engine draws when it has to pick a rowid at random. *)
Record medium : Type := Medium {
  on_execute : option bool;
  on_commit : option bool;
  rowid_draws : list Z
}.

Definition healthy : medium :=
  {| on_execute := None; on_commit := None; rowid_draws := [] |}.

Definition int64 (z : Z) : bool := (- 2 ^ 63 <=? z) && (z <? 2 ^ 63).

Definition after_error (rolled_back : bool) (w : manager) : manager :=
  if rolled_back
  then {| conn := {| committed := committed (conn w); pending := None |};
          dialogs := dialogs w |}
  else w.

(** The rowid of an INTEGER PRIMARY KEY column left unset: one more than
    the largest in use, 1 in an empty table.  Once the largest rowid in use
    is the largest 64-bit integer the engine draws candidates at random and
    takes the first that is not in use; when none is, the statement fails. *)
Definition MAX_ROWID : Z := 2 ^ 63 - 1.

Definition succ_rowid (rows : list row) : Z :=
  match rows with
  | [] => 1
  | r :: rest => foldr Z.max (row_id r) (row_id <$> rest) + 1
  end.

Definition unused_rowid (rows : list row) (c : Z) : bool :=
  (1 <=? c) && (c <=? MAX_ROWID) && forallb (fun r => negb (row_id r =? c)) rows.

Definition next_rowid (draws : list Z) (rows : list row) : option Z :=
  if succ_rowid rows <=? MAX_ROWID then Some (succ_rowid rows)
  else find (unused_rowid rows) draws.

(** The table is kept in rowid order. *)
Fixpoint insert_row (new : row) (rows : list row) : list row :=
  match rows with
  | [] => [new]
  | r :: rest =>
      if row_id new <? row_id r then new :: rows else r :: insert_row new rest
  end.

(** [c.execute(INSERT ..., params)]; the result is [c.lastrowid].  Binding
    an [int] outside 64 bits raises [OverflowError]. *)
Definition execute_insert (m : medium) (name gender state : string)
    (dressed behaved : Z) : Py manager Z :=
  fun w =>
    if negb (int64 dressed && int64 behaved) then (Raises OverflowError, w)
    else
      match on_execute m with
      | Some rb => (Raises SqliteError, after_error rb w)
      | None =>
          let rows := visible (conn w) in
          match next_rowid (rowid_draws m) rows with
          | None => (Raises SqliteError, w)
          | Some lastrowid =>
              let new := Row lastrowid name gender state dressed behaved in
              (Returns lastrowid,
               {| conn := {| committed := committed (conn w);
                             pending := Some (insert_row new rows) |};
                  dialogs := dialogs w |})
          end
      end.

(** [self.conn.commit()] *)
Definition commit (m : medium) : Py manager unit :=
  fun w =>
    match on_commit m with
    | Some rb => (Raises SqliteError, after_error rb w)
    | None =>
        (Returns tt,
         {| conn := {| committed := visible (conn w); pending := None |};
            dialogs := dialogs w |})
    end.

(** [c.execute(SELECT ...)] followed by [c.fetchall()] *)
Definition execute_select (m : medium) : Py manager (list row) :=
  fun w =>
    match on_execute m with
    | Some rb => (Raises SqliteError, after_error rb w)
    | None => (Returns (visible (conn w)), w)
    end.

Definition showerror (title message : string) : Py manager unit :=
  fun w => (Returns tt, {| conn := conn w; dialogs := dialogs w ++ [(title, message)] |}).

Definition insert_student (m : medium) (name gender state : string)
    (dressed behaved : Z) : Py manager (option Z) :=
  try_except_Error
    (lastrowid ← execute_insert m (strip name) (capitalize (strip gender))
                   (upper (strip state)) dressed behaved;
     _ ← commit m;
     mret (Some lastrowid))
    (_ ← showerror "Database Error" "Error inserting student: ";
     mret None).

Definition student_of_row (r : row) : gmap string value :=
  {[ "id" := VInt (row_id r);
     "name" := VStr (row_name r);
     "gender" := VStr (row_gender r);
     "state" := VStr (row_state r);
     "well_dressed" := VInt (row_well_dressed r);
     "well_behaved" := VInt (row_well_behaved r) ]}.

(** One turn of the loop over the fetched rows: build the dictionary, run
    the calculator on it, then [student.update(results)]. *)
Definition report_entry (r : row) : outcome (gmap string value) :=
  match calculate_award (student_of_row r) with
  | (Returns results, student) => Returns (results ∪ student)
  | (Raises e, _) => Raises e
  end.

Fixpoint report_entries (rows : list row) (students_data : list (gmap string value))
    : outcome (list (gmap string value)) :=
  match rows with
  | [] => Returns students_data
  | r :: rest =>
      student ← report_entry r;
      report_entries rest (students_data ++ [student])
  end.

Definition get_all_scholarship_data (m : medium) : Py manager (list (gmap string value)) :=
  try_except_Error
    (rows ← execute_select m;
     lift (report_entries rows []))
    (_ ← showerror "Database Error" "Error fetching data: ";
     mret []).

(** The running sums of [update_report]:
    total award, deduction and net payment over the listed students. *)
Fixpoint report_totals (students_data : list (gmap string value))
    (sums : value * value * value) : outcome (value * value * value) :=
  match students_data with
  | [] => Returns sums
  | student :: rest =>
      let '(total_award_sum, total_deduction_sum, total_net_sum) := sums in
      a ← subscript student "total_award";
      total_award_sum ← py_add total_award_sum a;
      d ← subscript student "deduction";
      total_deduction_sum ← py_add total_deduction_sum d;
      n ← subscript student "net_payment";
      total_net_sum ← py_add total_net_sum n;
      report_totals rest (total_award_sum, total_deduction_sum, total_net_sum)
  end.

Definition grand_totals (students_data : list (gmap string value))
    : outcome (value * value * value) :=
  report_totals students_data (VInt 0, VInt 0, VInt 0).

(** ** Sessions

    One run of the program is a succession of calls on the manager, each on
    the state the call before left: the window's callbacks call
    [insert_student] and [get_all_scholarship_data] in turn, and an
    exception that escapes a callback leaves the manager as it was when it
    was raised. *)

Inductive op : Type :=
  | Create (m : medium) (name gender state : string) (dressed behaved : Z)
  | ListAll (m : medium).

Inductive reply : Type :=
  | Created (o : outcome (option Z))
  | Listed (o : outcome (list (gmap string value))).

Definition step (o : op) (w : manager) : reply * manager :=
  match o with
  | Create m name gender state dressed behaved =>
      let '(r, w') := insert_student m name gender state dressed behaved w in
      (Created r, w')
  | ListAll m =>
      let '(r, w') := get_all_scholarship_data m w in
      (Listed r, w')
  end.

Fixpoint session (ops : list op) (w : manager) : list (op * reply) * manager :=
  match ops with
  | [] => ([], w)
  | o :: rest =>
      let '(r, w') := step o w in
      let '(log, w'') := session rest w' in
      ((o, r) :: log, w'')
  end.

Definition returned_id (e : op * reply) : option Z :=
  match e with
  | (_, Created (Returns (Some rowid))) => Some rowid
  | _ => None
  end.

(** The ids a session handed out, in the order of the calls. *)
Definition returned_ids (log : list (op * reply)) : list Z :=
  omap returned_id log.

(** An open transaction sees the durable rows followed by the rows it has
    added, whose rowids lie above those of the durable rows. *)
Definition well_formed (w : manager) : Prop :=
  match pending (conn w) with
  | None => True
  | Some rows =>
      exists extra,
        rows = committed (conn w) ++ extra
        /\ Forall (fun r => succ_rowid (committed (conn w)) <= row_id r) extra
  end.

(** ** Reference quantities used in the statements *)

(** The sum of the rule table's contributions that apply to [student]. *)
Definition award_of (student : gmap string value) : Z :=
  20000
  + (if truthy (dict_get student "well_dressed") then 10000 else 0)
  + (if truthy (dict_get student "well_behaved") then 5000 else 0)
  + (if eq_str (dict_get student "state") "OSUN" then 15000 else 0)
  + (if eq_str (dict_get student "gender") "Female" then 1000 else 0).

Definition award_dict (t : Z) (d n : spec_float) : gmap string value :=
  {[ "total_award" := VInt t; "deduction" := VFloat d; "net_payment" := VFloat n ]}.

(** The dictionary the listing yields for a row: the row's fields together
    with the calculator's results. *)
Definition entry_of_row (r : row) : gmap string value :=
  let student := student_of_row r in
  award_dict (award_of student)
    (Z2SF (award_of student / 20))
    (Z2SF (award_of student - award_of student / 20)) ∪ student.

Definition row_award (r : row) : Z :=
  20000
  + (if row_well_dressed r =? 0 then 0 else 10000)
  + (if row_well_behaved r =? 0 then 0 else 5000)
  + (if decide (row_state r = "OSUN") then 15000 else 0)
  + (if decide (row_gender r = "Female") then 1000 else 0).

(** The manager after one more message box. *)
Definition notified (title message : string) (w : manager) : manager :=
  {| conn := conn w; dialogs := dialogs w ++ [(title, message)] |}.



(** The row an insertion writes under rowid [rowid]. *)
Definition normalized (rowid : Z) (name gender state : string)
    (dressed behaved : Z) : row :=
  Row rowid (strip name) (capitalize (strip gender)) (upper (strip state))
    dressed behaved.

Definition with_pending (rows : list row) (w : manager) : manager :=
  {| conn := {| committed := committed (conn w); pending := Some rows |};
     dialogs := dialogs w |}.

Definition with_committed (rows : list row) (w : manager) : manager :=
  {| conn := {| committed := rows; pending := None |};
     dialogs := dialogs w |}.

(** ** Reference quantities for binary64 *)

(** [q] shifted left by [k] bits. *)
Definition shl (q : positive) (k : Z) : positive :=
  match k with
  | Zpos n => Pos.iter xO q n
  | _ => q
  end.

(** The mantissa and the exponent of the double that a positive integer
    below 2^53 is. *)
Definition mant (q : positive) : positive := shl q (prec - Zpos (digits2_pos q)).
Definition expo (q : positive) : Z := Zpos (digits2_pos q) - prec.

(** A running sum of the report: the [int] 0 it starts from, a [float]
    once an amount has been added. *)
Definition running (z : Z) : value :=
  if z =? 0 then VInt 0 else VFloat (Z2SF z).

Definition sum_awards (rows : list row) : Z :=
  foldr (fun r acc => row_award r + acc) 0 rows.

Definition sum_deductions (rows : list row) : Z :=
  foldr (fun r acc => row_award r / 20 + acc) 0 rows.

Definition sum_nets (rows : list row) : Z :=
  foldr (fun r acc => (row_award r - row_award r / 20) + acc) 0 rows.

(** ** The window

    [ScholarshipApp]: the variables behind the input widgets, the manager
    and what the report widget holds.  The report widget holds either a
    plain text or the table built from a listing and its grand totals; the
    layout of the table's lines is not modelled. *)

Definition NIGERIAN_STATES : list string :=
  [ "ABIA"; "ADAMAWA"; "AKWA IBOM"; "ANAMBRA"; "BAUCHI"; "BAYELSA"; "BENUE"; "BORNO";
    "CROSS RIVER"; "DELTA"; "EBONYI"; "EDO"; "EKITI"; "ENUGU"; "GOMBE"; "IMO";
    "JIGAWA"; "KADUNA"; "KANO"; "KATSINA"; "KEBBI"; "KOGI"; "KWARA"; "LAGOS";
    "NASARAWA"; "NIGER"; "OGUN"; "ONDO"; "OSUN"; "OYO"; "PLATEAU"; "RIVERS";
    "SOKOTO"; "TARABA"; "YOBE"; "ZAMFARA"; "FCT" ].

Inductive shown : Type :=
  | Text (s : string)
  | Report (students_data : list (gmap string value)) (totals : value * value * value).

Record app : Type := App {
  app_manager : manager;
  name_var : string;
  gender_var : string;
  state_var : string;
  dressed_var : Z;
  behaved_var : Z;
  report_text : shown
}.

(** A method of the manager, called from the window. *)
Definition on_manager {A} (p : Py manager A) : Py app A :=
  fun a =>
    let '(o, w) := p (app_manager a) in
    (o, {| app_manager := w;
           name_var := name_var a; gender_var := gender_var a;
           state_var := state_var a;
           dressed_var := dressed_var a; behaved_var := behaved_var a;
           report_text := report_text a |}).

Definition set_report (t : shown) : Py app unit :=
  fun a =>
    (Returns tt,
     {| app_manager := app_manager a;
        name_var := name_var a; gender_var := gender_var a;
        state_var := state_var a;
        dressed_var := dressed_var a; behaved_var := behaved_var a;
        report_text := t |}).

(** [name_var.set(""); dressed_var.set(0); behaved_var.set(0)] *)
Definition clear_inputs : Py app unit :=
  fun a =>
    (Returns tt,
     {| app_manager := app_manager a;
        name_var := ""; gender_var := gender_var a;
        state_var := state_var a;
        dressed_var := 0; behaved_var := 0;
        report_text := report_text a |}).

Definition showwarning (title message : string) : Py manager unit :=
  fun w => (Returns tt, {| conn := conn w; dialogs := dialogs w ++ [(title, message)] |}).

Definition showinfo (title message : string) : Py manager unit :=
  fun w => (Returns tt, {| conn := conn w; dialogs := dialogs w ++ [(title, message)] |}).

Definition update_report (m : medium) : Py app unit :=
  students_data ← on_manager (get_all_scholarship_data m);
  match students_data with
  | [] => set_report (Text "No student records found. Add a student to begin.")
  | _ :: _ =>
      totals ← lift (grand_totals students_data);
      set_report (Report students_data totals)
  end.

(** What [insert_student] returned, as the object [if student_id:] tests. *)
Definition id_value (student_id : option Z) : value :=
  match student_id with
  | Some rowid => VInt rowid
  | None => VNone
  end.

(** [mi] is the medium the insertion meets, [mr] the one the refresh of the
    report meets. *)
Definition save_student (mi mr : medium) : Py app unit :=
  fun a =>
    let name := name_var a in
    let gender := gender_var a in
    let state := state_var a in
    let dressed := dressed_var a in
    let behaved := behaved_var a in
    if negb (truthy (VStr name)) || negb (truthy (VStr gender))
       || negb (truthy (VStr state))
    then
      on_manager
        (showwarning "Input Error"
           "Please fill in all mandatory fields (Name, Gender, State).") a
    else
      (student_id ← on_manager (insert_student mi name gender state dressed behaved);
       if truthy (id_value student_id)
       then
         _ ← on_manager
               (showinfo "Success"
                  ("Student '" +:+ name +:+ "' saved successfully (ID: "
                   +:+ pretty (default 0 student_id) +:+ ")."));
         _ ← update_report mr;
         clear_inputs
       else mret tt) a.

(** ** Further reference quantities *)

(** The rowids of a table, strictly increasing: no rowid occurs twice. *)
Definition ids_increasing (rows : list row) : Prop :=
  StronglySorted Z.lt (row_id <$> rows).

(** The arguments of one creation, and the call that makes it on a healthy
    medium. *)
Record fields : Type := Fields {
  f_name : string;
  f_gender : string;
  f_state : string;
  f_dressed : Z;
  f_behaved : Z
}.

Definition create_healthy (f : fields) : op :=
  Create healthy (f_name f) (f_gender f) (f_state f) (f_dressed f) (f_behaved f).

(** The rows a run of creations adds, the first under rowid [first]. *)
Fixpoint normalized_from (first : Z) (fs : list fields) : list row :=
  match fs with
  | [] => []
  | f :: rest =>
      normalized first (f_name f) (f_gender f) (f_state f) (f_dressed f) (f_behaved f)
      :: normalized_from (first + 1) rest
  end.

Fixpoint ids_from (first : Z) (n : nat) : list Z :=
  match n with
  | O => []
  | S n' => first :: ids_from (first + 1) n'
  end.

(** The window with its manager replaced, and with its report replaced. *)
Definition with_manager (w : manager) (a : app) : app :=
  {| app_manager := w;
     name_var := name_var a; gender_var := gender_var a; state_var := state_var a;
     dressed_var := dressed_var a; behaved_var := behaved_var a;
     report_text := report_text a |}.

Definition with_report (t : shown) (a : app) : app :=
  {| app_manager := app_manager a;
     name_var := name_var a; gender_var := gender_var a; state_var := state_var a;
     dressed_var := dressed_var a; behaved_var := behaved_var a;
     report_text := t |}.

Definition no_records : shown :=
  Text "No student records found. Add a student to begin.".

Definition success_text (name : string) (rowid : Z) : string :=
  "Student '" +:+ name +:+ "' saved successfully (ID: " +:+ pretty rowid +:+ ").".

(** The keys of a listed dictionary. *)
Definition listed_keys : gset string :=
  {[ "id"; "name"; "gender"; "state"; "well_dressed"; "well_behaved";
     "total_award"; "deduction"; "net_payment" ]}.

(** * Properties *)

(** ** The calculator *)

Ltac eval_floats :=
  repeat match goal with
    | |- context [int_mul_float ?t ?r] =>
        let v := eval vm_compute in (int_mul_float t r) in
        change (int_mul_float t r) with v; cbv beta iota
    | |- context [int_sub_float ?t ?r] =>
        let v := eval vm_compute in (int_sub_float t r) in
        change (int_sub_float t r) with v; cbv beta iota
    | |- context [Z2SF ?t] =>
        let v := eval vm_compute in (Z2SF t) in
        change (Z2SF t) with v
    | |- context [VInt (?a + ?b)] =>
        let v := eval vm_compute in (a + b) in
        change (a + b) with v
    end.

Lemma calculate_award_run (student : gmap string value) :
  calculate_award student =
    (Returns (award_dict (award_of student)
                (Z2SF (award_of student / 20))
                (Z2SF (award_of student - award_of student / 20))),
     student).
Proof.
  unfold calculate_award, award_of, mbind, Py_bind, mret, Py_ret, lift, student_get.
  replace (subscript AWARD_ATTRIBUTES "general_gift") with (Returns 20000) by reflexivity.
  replace (subscript AWARD_ATTRIBUTES "well_dressed") with (Returns 10000) by reflexivity.
  replace (subscript AWARD_ATTRIBUTES "well_behaved") with (Returns 5000) by reflexivity.
  replace (subscript AWARD_ATTRIBUTES "osun_state") with (Returns 15000) by reflexivity.
  replace (subscript AWARD_ATTRIBUTES "female_monthly") with (Returns 1000) by reflexivity.
  destruct (truthy (dict_get student "well_dressed")),
           (truthy (dict_get student "well_behaved")),
           (eq_str (dict_get student "state") "OSUN"),
           (eq_str (dict_get student "gender") "Female");
    cbv beta iota; eval_floats; reflexivity.
Qed.

Lemma truthy_missing (student : gmap string value) (k : string) :
  student !! k = None -> truthy (dict_get student k) = false.
Proof. intros H. unfold dict_get. rewrite H. reflexivity. Qed.

Lemma eq_str_missing (student : gmap string value) (k lit : string) :
  student !! k = None -> eq_str (dict_get student k) lit = false.
Proof. intros H. unfold dict_get. rewrite H. reflexivity. Qed.

(** [eq_str] holds exactly of the string object equal to the literal. *)
Lemma eq_str_true_iff (student : gmap string value) (k lit : string) :
  eq_str (dict_get student k) lit = true <-> student !! k = Some (VStr lit).
Proof.
  unfold dict_get. destruct (student !! k) as [[ | b | z | f | s]|]; simpl;
    try (split; [discriminate | intros [=]]).
  rewrite String.eqb_eq. split; [intros -> | intros [=]]; congruence.
Qed.

Lemma eq_str_decide (student : gmap string value) (k lit : string) :
  eq_str (dict_get student k) lit
  = bool_decide (student !! k = Some (VStr lit)).
Proof.
  destruct (eq_str (dict_get student k) lit) eqn:E.
  - symmetry. apply bool_decide_eq_true. by apply eq_str_true_iff.
  - symmetry. apply bool_decide_eq_false. intros H.
    apply eq_str_true_iff in H. congruence.
Qed.

Lemma award_of_bounds (student : gmap string value) :
  20000 <= award_of student <= 51000.
Proof.
  unfold award_of.
  destruct (truthy _), (truthy _), (eq_str _ "OSUN"), (eq_str _ "Female"); lia.
Qed.

Lemma award_dict_total (t : Z) (d n : spec_float) :
  award_dict t d n !! "total_award" = Some (VInt t).
Proof. unfold award_dict. by simplify_map_eq. Qed.

Lemma award_dict_deduction (t : Z) (d n : spec_float) :
  award_dict t d n !! "deduction" = Some (VFloat d).
Proof. unfold award_dict. by simplify_map_eq. Qed.

Lemma award_dict_net (t : Z) (d n : spec_float) :
  award_dict t d n !! "net_payment" = Some (VFloat n).
Proof. unfold award_dict. by simplify_map_eq. Qed.

Lemma calculate_award_returns (student : gmap string value) :
  exists results, calculate_award student = (Returns results, student)
    /\ results !! "total_award" = Some (VInt (award_of student))
    /\ results !! "deduction" = Some (VFloat (Z2SF (award_of student / 20)))
    /\ results !! "net_payment"
       = Some (VFloat (Z2SF (award_of student - award_of student / 20))).
Proof.
  eexists. split; [apply calculate_award_run |].
  auto using award_dict_total, award_dict_deduction, award_dict_net.
Qed.

(** C1: for every student record the calculator returns [total_award] equal
    to the base 20000, plus 10000 when [well_dressed] is truthy, plus 5000
    when [well_behaved] is truthy, plus 15000 when [state] is exactly the
    string "OSUN", plus 1000 when [gender] is exactly the string "Female";
    hence the total lies between 20000 and 51000. *)
Theorem C1_total_award_rule (student : gmap string value) :
  exists results total_award,
    (calculate_award student).1 = Returns results
    /\ results !! "total_award" = Some (VInt total_award)
    /\ total_award =
         20000
         + (if truthy (dict_get student "well_dressed") then 10000 else 0)
         + (if truthy (dict_get student "well_behaved") then 5000 else 0)
         + (if decide (student !! "state" = Some (VStr "OSUN")) then 15000 else 0)
         + (if decide (student !! "gender" = Some (VStr "Female")) then 1000 else 0)
    /\ 20000 <= total_award <= 51000.
Proof.
  destruct (calculate_award_returns student) as (results & Hrun & Ht & _).
  exists results, (award_of student). rewrite Hrun.
  split; [reflexivity |]. split; [exact Ht |].
  split; [| apply award_of_bounds].
  unfold award_of. rewrite !eq_str_decide.
  repeat case_bool_decide; repeat case_decide; first [reflexivity | contradiction].
Qed.

(** C8: the calculator is a deterministic, total function of the record:
    it always returns, two successive calls on the same record give the same
    award, deduction and net payment, and the result depends on nothing but
    the four fields it reads. *)
Theorem C8_calculate_deterministic (student : gmap string value) :
  exists results,
    calculate_award student = (Returns results, student)
    /\ (r1 ← calculate_award; r2 ← calculate_award;
        mret (r1, r2) : Py (gmap string value) _) student
       = (Returns (results, results), student)
    /\ forall other : gmap string value,
         dict_get other "well_dressed" = dict_get student "well_dressed" ->
         dict_get other "well_behaved" = dict_get student "well_behaved" ->
         dict_get other "state" = dict_get student "state" ->
         dict_get other "gender" = dict_get student "gender" ->
         (calculate_award other).1 = Returns results.
Proof.
  eexists. split; [apply calculate_award_run |]. split.
  - unfold mbind, Py_bind, mret, Py_ret.
    rewrite !calculate_award_run. reflexivity.
  - intros other Hd Hb Hs Hg. rewrite calculate_award_run. simpl.
    unfold award_of. rewrite Hd, Hb, Hs, Hg. reflexivity.
Qed.

Lemma C8_calculate_deterministic_witness :
  exists results,
    calculate_award {[ "state" := VStr "OSUN" ]} = (Returns results, {[ "state" := VStr "OSUN" ]})
    /\ (calculate_award (<[ "name" := VStr "Ada" ]> {[ "state" := VStr "OSUN" ]})).1
       = Returns results.
Proof.
  destruct (C8_calculate_deterministic {[ "state" := VStr "OSUN" ]})
    as (results & Hrun & _ & Hdep).
  exists results. split; [exact Hrun |].
  apply Hdep; reflexivity.
Defined.

(** C9: the calculator leaves the record it is given as it found it: the
    dictionary after the call is the dictionary before it, field by field. *)
Theorem C9_calculate_frame (student : gmap string value) :
  let after := (calculate_award student).2 in
  after = student
  /\ after !! "id" = student !! "id"
  /\ after !! "name" = student !! "name"
  /\ after !! "gender" = student !! "gender"
  /\ after !! "state" = student !! "state"
  /\ after !! "well_dressed" = student !! "well_dressed"
  /\ after !! "well_behaved" = student !! "well_behaved".
Proof.
  rewrite calculate_award_run. simpl. repeat split.
Qed.

(** C10: the calculator returns on every dictionary, whatever fields it
    lacks; a missing field counts as falsy, respectively as not matching;
    and a record with none of the four fields gets total 20000, deduction
    1000.0 and net payment 19000.0. *)
Theorem C10_total_on_malformed (student : gmap string value) :
  exists results total_award,
    (calculate_award student).1 = Returns results
    /\ results !! "total_award" = Some (VInt total_award)
    /\ total_award =
         20000
         + match student !! "well_dressed" with
           | Some v => if truthy v then 10000 else 0
           | None => 0
           end
         + match student !! "well_behaved" with
           | Some v => if truthy v then 5000 else 0
           | None => 0
           end
         + match student !! "state" with
           | Some v => if decide (v = VStr "OSUN") then 15000 else 0
           | None => 0
           end
         + match student !! "gender" with
           | Some v => if decide (v = VStr "Female") then 1000 else 0
           | None => 0
           end
    /\ (student !! "well_dressed" = None -> student !! "well_behaved" = None ->
        student !! "state" = None -> student !! "gender" = None ->
        results = {[ "total_award" := VInt 20000;
                     "deduction" := VFloat (Z2SF 1000);
                     "net_payment" := VFloat (Z2SF 19000) ]}
        /\ SF2Z (Z2SF 1000) = Some 1000 /\ SF2Z (Z2SF 19000) = Some 19000).
Proof.
  eexists. exists (award_of student). rewrite calculate_award_run.
  split; [reflexivity |]. split; [apply award_dict_total |]. split.
  - unfold award_of. rewrite !eq_str_decide. unfold dict_get.
    destruct (student !! "well_dressed"), (student !! "well_behaved"),
      (student !! "state"), (student !! "gender"); simpl;
      repeat case_bool_decide; repeat case_decide;
      first [reflexivity | congruence].
  - intros Hd Hb Hs Hg.
    assert (award_of student = 20000) as ->.
    { unfold award_of.
      rewrite !truthy_missing, !eq_str_missing by assumption. reflexivity. }
    split; [reflexivity |]. split; vm_compute; reflexivity.
Qed.

Lemma C10_total_on_malformed_witness :
  exists results,
    (calculate_award ∅).1 = Returns results
    /\ results = {[ "total_award" := VInt 20000;
                    "deduction" := VFloat (Z2SF 1000);
                    "net_payment" := VFloat (Z2SF 19000) ]}.
Proof.
  destruct (C10_total_on_malformed ∅) as (results & t & Hrun & _ & _ & Hnone).
  exists results. split; [exact Hrun |].
  apply Hnone; reflexivity.
Defined.

(** ** Strings *)





Lemma upper_char_spec (c : ascii) :
  if is_lower c
  then N_of_ascii (upper_char c) = (N_of_ascii c - 32)%N
       /\ is_upper (upper_char c) = true
  else upper_char c = c.
Proof.
  destruct c as [[] [] [] [] [] [] [] []]; vm_compute; auto.
Qed.

Lemma lower_char_spec (c : ascii) :
  if is_upper c
  then N_of_ascii (lower_char c) = (N_of_ascii c + 32)%N
       /\ is_lower (lower_char c) = true
  else lower_char c = c.
Proof.
  destruct c as [[] [] [] [] [] [] [] []]; vm_compute; auto.
Qed.

(** ** The record store *)

Lemma insert_student_run (m : medium) (name gender state : string)
    (dressed behaved : Z) (w : manager) :
  let rows := visible (conn w) in
  insert_student m name gender state dressed behaved w =
    if negb (int64 dressed && int64 behaved) then (Raises OverflowError, w)
    else
      match on_execute m with
      | Some rb =>
          (Returns None,
           notified "Database Error" "Error inserting student: " (after_error rb w))
      | None =>
          match next_rowid (rowid_draws m) rows with
          | None =>
              (Returns None,
               notified "Database Error" "Error inserting student: " w)
          | Some rowid =>
              let r := normalized rowid name gender state dressed behaved in
              match on_commit m with
              | Some rb =>
                  (Returns None,
                   notified "Database Error" "Error inserting student: "
                     (after_error rb (with_pending (insert_row r rows) w)))
              | None =>
                  (Returns (Some rowid), with_committed (insert_row r rows) w)
              end
          end
      end.
Proof.
  unfold insert_student, try_except_Error, mbind, Py_bind, mret, Py_ret,
    execute_insert, commit, showerror.
  destruct (negb (int64 dressed && int64 behaved)); [reflexivity |].
  destruct (on_execute m) as [rb |]; [reflexivity |].
  destruct (next_rowid (rowid_draws m) (visible (conn w))); [| reflexivity].
  destruct (on_commit m) as [rb |]; reflexivity.
Qed.

Lemma report_entry_run (r : row) : report_entry r = Returns (entry_of_row r).
Proof. unfold report_entry. rewrite calculate_award_run. reflexivity. Qed.

Lemma report_entries_run (rows : list row) (acc : list (gmap string value)) :
  report_entries rows acc = Returns (acc ++ (entry_of_row <$> rows)).
Proof.
  revert acc. induction rows as [| r rows IH]; intros acc; simpl.
  - by rewrite app_nil_r.
  - rewrite report_entry_run. unfold mbind, outcome_mbind. simpl.
    rewrite IH, <- app_assoc. reflexivity.
Qed.

Lemma get_all_scholarship_data_run (m : medium) (w : manager) :
  get_all_scholarship_data m w =
    match on_execute m with
    | Some rb =>
        (Returns [],
         notified "Database Error" "Error fetching data: " (after_error rb w))
    | None => (Returns (entry_of_row <$> visible (conn w)), w)
    end.
Proof.
  unfold get_all_scholarship_data, try_except_Error, mbind, Py_bind, mret,
    Py_ret, execute_select, showerror, lift.
  destruct (on_execute m) as [rb |]; [reflexivity |].
  rewrite report_entries_run. reflexivity.
Qed.

Lemma award_of_row (r : row) : award_of (student_of_row r) = row_award r.
Proof.
  unfold award_of, row_award. rewrite !eq_str_decide.
  unfold dict_get, student_of_row. simplify_map_eq. simpl.
  destruct (row_well_dressed r =? 0), (row_well_behaved r =? 0); simpl;
    repeat case_bool_decide; repeat case_decide; simplify_eq;
    first [reflexivity | congruence].
Qed.

Lemma entry_of_row_fields (r : row) :
  let d := entry_of_row r in
  d !! "id" = Some (VInt (row_id r))
  /\ d !! "name" = Some (VStr (row_name r))
  /\ d !! "gender" = Some (VStr (row_gender r))
  /\ d !! "state" = Some (VStr (row_state r))
  /\ d !! "well_dressed" = Some (VInt (row_well_dressed r))
  /\ d !! "well_behaved" = Some (VInt (row_well_behaved r))
  /\ d !! "total_award" = Some (VInt (row_award r))
  /\ d !! "deduction" = Some (VFloat (Z2SF (row_award r / 20)))
  /\ d !! "net_payment" = Some (VFloat (Z2SF (row_award r - row_award r / 20))).
Proof.
  unfold entry_of_row. rewrite award_of_row.
  unfold award_dict, student_of_row.
  repeat split; rewrite lookup_union; by simplify_map_eq.
Qed.

Lemma insert_student_success (m : medium) (name gender state : string)
    (dressed behaved rowid : Z) (w w' : manager) :
  insert_student m name gender state dressed behaved w = (Returns (Some rowid), w') ->
  next_rowid (rowid_draws m) (visible (conn w)) = Some rowid
  /\ w' = with_committed
            (insert_row (normalized rowid name gender state dressed behaved)
               (visible (conn w))) w
  /\ on_execute m = None /\ on_commit m = None
  /\ int64 dressed = true /\ int64 behaved = true.
Proof.
  rewrite insert_student_run.
  destruct (int64 dressed) eqn:Hd, (int64 behaved) eqn:Hb; simpl; try discriminate.
  destruct (on_execute m) as [rb |]; [discriminate |].
  destruct (next_rowid (rowid_draws m) (visible (conn w))) as [n |]; [| discriminate].
  destruct (on_commit m) as [rb |]; [discriminate |].
  intros [= <- <-]. repeat split.
Qed.

Lemma succ_rowid_gt (rows : list row) (r : row) :
  r ∈ rows -> row_id r < succ_rowid rows.
Proof.
  destruct rows as [| r0 rows]; [by intros ?%elem_of_nil |].
  unfold succ_rowid. intros Hr.
  enough (row_id r <= foldr Z.max (row_id r0) (row_id <$> rows)) by lia.
  assert (row_id r0 <= foldr Z.max (row_id r0) (row_id <$> rows)) as H0.
  { clear. induction rows as [| r1 rows IH]; csimpl; lia. }
  apply elem_of_cons in Hr as [-> | Hr]; [exact H0 |]. clear H0.
  induction rows as [| r1 rows IH]; [by apply elem_of_nil in Hr |].
  csimpl. apply elem_of_cons in Hr as [-> | Hr]; [lia |].
  specialize (IH Hr). lia.
Qed.

Lemma succ_rowid_le (rows : list row) (b : Z) :
  rows <> [] -> (forall r, r ∈ rows -> row_id r < b) -> succ_rowid rows <= b.
Proof.
  destruct rows as [| r0 rows]; [congruence |]. intros _ Hb.
  unfold succ_rowid.
  enough (foldr Z.max (row_id r0) (row_id <$> rows) < b) by lia.
  assert (row_id r0 < b) as H0 by (apply Hb, list_elem_of_here).
  assert (forall r, r ∈ rows -> row_id r < b) as Hrest
    by (intros r Hr; by apply Hb, list_elem_of_further).
  clear Hb. induction rows as [| r1 rows IH]; csimpl; [exact H0 |].
  assert (row_id r1 < b) by (apply Hrest, list_elem_of_here).
  assert (foldr Z.max (row_id r0) (row_id <$> rows) < b).
  { apply IH. intros r Hr. by apply Hrest, list_elem_of_further. }
  lia.
Qed.

Lemma succ_rowid_app_le (rows extra : list row) :
  Forall (fun r => succ_rowid rows <= row_id r) extra ->
  succ_rowid rows <= succ_rowid (rows ++ extra).
Proof.
  destruct extra as [| e extra]; [by rewrite app_nil_r |].
  intros [He _]%Forall_cons.
  assert (row_id e < succ_rowid (rows ++ e :: extra)); [| lia].
  apply succ_rowid_gt. apply elem_of_app. right. apply list_elem_of_here.
Qed.

Lemma succ_rowid_snoc (rows : list row) (new : row) :
  row_id new = succ_rowid rows -> succ_rowid (rows ++ [new]) = row_id new + 1.
Proof.
  intros Hnew.
  assert (row_id new < succ_rowid (rows ++ [new])).
  { apply succ_rowid_gt, elem_of_app. right. apply list_elem_of_here. }
  assert (succ_rowid (rows ++ [new]) <= row_id new + 1); [| lia].
  apply succ_rowid_le; [by destruct rows |].
  intros r [Hr | ->%list_elem_of_singleton]%elem_of_app; [| lia].
  apply succ_rowid_gt in Hr. lia.
Qed.

Lemma next_rowid_below (draws : list Z) (rows : list row) :
  succ_rowid rows <= MAX_ROWID -> next_rowid draws rows = Some (succ_rowid rows).
Proof.
  intros H. unfold next_rowid.
  by destruct (Z.leb_spec (succ_rowid rows) MAX_ROWID); [| lia].
Qed.

Lemma insert_row_elem (new r : row) (rows : list row) :
  r ∈ insert_row new rows <-> r = new \/ r ∈ rows.
Proof.
  induction rows as [| r0 rows IH]; simpl.
  - rewrite list_elem_of_singleton, elem_of_nil. tauto.
  - destruct (row_id new <? row_id r0).
    + apply elem_of_cons.
    + rewrite !elem_of_cons, IH. tauto.
Qed.

(** A row whose rowid lies above those in the table goes to its end. *)
Lemma insert_row_last (new : row) (rows : list row) :
  (forall r, r ∈ rows -> row_id r < row_id new) ->
  insert_row new rows = rows ++ [new].
Proof.
  induction rows as [| r0 rows IH]; intros H; simpl; [reflexivity |].
  assert (row_id r0 < row_id new) as H0 by apply H, list_elem_of_here.
  destruct (Z.ltb_spec (row_id new) (row_id r0)); [lia |].
  rewrite IH; [reflexivity |]. intros r Hr. by apply H, list_elem_of_further.
Qed.

Lemma insert_student_healthy (name gender state : string)
    (dressed behaved : Z) (w : manager) :
  int64 dressed = true -> int64 behaved = true ->
  succ_rowid (visible (conn w)) <= MAX_ROWID ->
  let rowid := succ_rowid (visible (conn w)) in
  insert_student healthy name gender state dressed behaved w =
    (Returns (Some rowid),
     with_committed
       (visible (conn w) ++ [normalized rowid name gender state dressed behaved]) w).
Proof.
  intros Hd Hb Hmax. rewrite insert_student_run, Hd, Hb. simpl.
  rewrite next_rowid_below by exact Hmax.
  rewrite insert_row_last; [reflexivity |].
  intros r Hr. apply succ_rowid_gt in Hr. exact Hr.
Qed.

Lemma entry_of_row_award (r : row) : award_of (entry_of_row r) = row_award r.
Proof.
  rewrite <- award_of_row. unfold award_of, dict_get.
  destruct (entry_of_row_fields r) as (_ & _ & Hg & Hs & Hd & Hb & _).
  rewrite Hg, Hs, Hd, Hb. unfold student_of_row. by simplify_map_eq.
Qed.







(** What holds of a failing insertion: it raises nothing, returns no id,
    shows the error, and leaves the durable table as it was. *)
Lemma insert_student_failure (m : medium) (name gender state : string)
    (dressed behaved : Z) (w : manager) :
  int64 dressed = true -> int64 behaved = true ->
  on_execute m <> None \/ on_commit m <> None ->
  exists w',
    insert_student m name gender state dressed behaved w = (Returns None, w')
    /\ committed (conn w') = committed (conn w)
    /\ dialogs w' = dialogs w ++ [("Database Error", "Error inserting student: ")].
Proof.
  intros Hd Hb Hm. rewrite insert_student_run, Hd, Hb. simpl.
  destruct (on_execute m) as [[] |]; try (eexists; repeat split; fail).
  destruct (next_rowid _ _); [| eexists; repeat split; fail].
  destruct (on_commit m) as [[] |]; try (eexists; repeat split; fail).
  by destruct Hm.
Qed.

(** When the INSERT statement itself fails and the engine keeps the
    transaction, what a later read sees is unchanged as well. *)
Lemma insert_student_execute_failure (m : medium) (name gender state : string)
    (dressed behaved : Z) (w : manager) :
  int64 dressed = true -> int64 behaved = true -> on_execute m = Some false ->
  exists w',
    insert_student m name gender state dressed behaved w = (Returns None, w')
    /\ conn w' = conn w.
Proof.
  intros Hd Hb Hm. rewrite insert_student_run, Hd, Hb, Hm. simpl.
  eexists. split; reflexivity.
Qed.

(** A successful insertion has committed its record, and nothing is left
    pending, by the time it returns the id. *)
Lemma insert_student_committed (m : medium) (name gender state : string)
    (dressed behaved rowid : Z) (w w' : manager) :
  insert_student m name gender state dressed behaved w = (Returns (Some rowid), w') ->
  normalized rowid name gender state dressed behaved ∈ committed (conn w')
  /\ pending (conn w') = None.
Proof.
  intros H. apply insert_student_success in H as (_ & -> & _). simpl.
  split; [| reflexivity]. apply insert_row_elem. by left.
Qed.



Lemma insert_student_failure_witness :
  exists w',
    insert_student {| on_execute := Some true; on_commit := None; rowid_draws := [] |}
      "Ada Obi" "female" " osun " 1 1 (Manager (Connection [] None) [])
    = (Returns None, w')
    /\ committed (conn w') = [].
Proof.
  destruct (insert_student_failure
              {| on_execute := Some true; on_commit := None; rowid_draws := [] |}
              "Ada Obi" "female" " osun " 1 1 (Manager (Connection [] None) []))
    as (w' & Hrun & Hc & _); [reflexivity | reflexivity | left; discriminate |].
  by exists w'.
Defined.

Lemma insert_student_committed_witness :
  normalized 1 "Ada Obi" "female" " osun " 1 1
    ∈ committed (conn (with_committed
                         [normalized 1 "Ada Obi" "female" " osun " 1 1]
                         (Manager (Connection [] None) []))).
Proof.
  apply (insert_student_committed healthy "Ada Obi" "female" " osun " 1 1 1
           (Manager (Connection [] None) [])).
  reflexivity.
Defined.

(** A commit that fails while the engine keeps the transaction leaves the
    attempted record on the connection, whatever the store held. *)
Lemma insert_student_commit_failure (m : medium) (name gender state : string)
    (dressed behaved : Z) (w : manager) :
  int64 dressed = true -> int64 behaved = true ->
  succ_rowid (visible (conn w)) <= MAX_ROWID ->
  on_execute m = None -> on_commit m = Some false ->
  exists w',
    insert_student m name gender state dressed behaved w = (Returns None, w')
    /\ committed (conn w') = committed (conn w)
    /\ visible (conn w') =
         visible (conn w)
         ++ [normalized (succ_rowid (visible (conn w))) name gender state
               dressed behaved].
Proof.
  intros Hd Hb Hmax Hexec Hcommit.
  rewrite insert_student_run, Hd, Hb, Hexec. simpl.
  rewrite next_rowid_below by exact Hmax. cbv zeta. rewrite Hcommit.
  eexists. split; [reflexivity |]. split; [reflexivity |].
  unfold visible at 1. simpl. apply insert_row_last.
  intros r Hr. by apply succ_rowid_gt in Hr.
Qed.

(** C5, at the failing input: the INSERT runs, the commit raises and the
    engine keeps the transaction open.  The call reports the error and
    returns no id, yet the record stays on the connection: the next listing
    shows it, and the next successful insertion commits it along with its
    own record. *)
Theorem C5_failed_commit_keeps_record :
  let busy := {| on_execute := None; on_commit := Some false; rowid_draws := [] |} in
  let w0 := Manager (Connection [] None) [] in
  exists w1 w2 student,
    insert_student busy "Ada Obi" "female" " osun " 1 1 w0 = (Returns None, w1)
    /\ committed (conn w1) = []
    /\ (get_all_scholarship_data healthy w1).1 = Returns [student]
    /\ student !! "name" = Some (VStr "Ada Obi")
    /\ insert_student healthy "Musa Bello" "Male" "kano" 0 0 w1
       = (Returns (Some 2), w2)
    /\ row_name <$> committed (conn w2) = ["Ada Obi"; "Musa Bello"].
Proof.
  simpl. eexists. eexists. eexists.
  split; [reflexivity |]. split; [reflexivity |].
  rewrite get_all_scholarship_data_run. simpl.
  split; [reflexivity |].
  split; [apply (entry_of_row_fields (normalized 1 "Ada Obi" "female" " osun " 1 1)) |].
  split; reflexivity.
Qed.

(** C6: the listing returns one dictionary per record of the store, in
    order, carrying that record's fields; when the read fails it returns the
    empty list instead of raising or returning part of the records; and on
    an empty store it returns the empty list. *)
Theorem C6_listing (m : medium) (w : manager) :
  exists data,
    (get_all_scholarship_data m w).1 = Returns data
    /\ (on_execute m = None ->
        length data = length (visible (conn w))
        /\ forall (i : nat) (r : row),
             visible (conn w) !! i = Some r ->
             exists student,
               data !! i = Some student
               /\ student !! "id" = Some (VInt (row_id r))
               /\ student !! "name" = Some (VStr (row_name r))
               /\ student !! "gender" = Some (VStr (row_gender r))
               /\ student !! "state" = Some (VStr (row_state r))
               /\ student !! "well_dressed" = Some (VInt (row_well_dressed r))
               /\ student !! "well_behaved" = Some (VInt (row_well_behaved r)))
    /\ (on_execute m <> None -> data = [])
    /\ (visible (conn w) = [] -> data = []).
Proof.
  rewrite get_all_scholarship_data_run.
  destruct (on_execute m) as [rb |]; simpl.
  - exists []. repeat split; try discriminate; auto.
  - exists (entry_of_row <$> visible (conn w)).
    split; [reflexivity |]. split; [| split].
    + intros _. split; [apply length_fmap |].
      intros i r Hr. exists (entry_of_row r).
      split; [by rewrite list_lookup_fmap, Hr |].
      destruct (entry_of_row_fields r) as (? & ? & ? & ? & ? & ? & _).
      repeat split; assumption.
    + intros H. exfalso. by apply H.
    + intros ->. reflexivity.
Qed.

Lemma C6_listing_witness :
  exists data,
    (get_all_scholarship_data {| on_execute := Some true; on_commit := None; rowid_draws := [] |}
       (Manager (Connection [normalized 1 "Ada Obi" "female" " osun " 1 1] None) [])).1
    = Returns data
    /\ data = [].
Proof.
  destruct (C6_listing {| on_execute := Some true; on_commit := None; rowid_draws := [] |}
              (Manager (Connection [normalized 1 "Ada Obi" "female" " osun " 1 1] None) []))
    as (data & Hrun & _ & Hfail & _).
  exists data. split; [exact Hrun |]. apply Hfail. discriminate.
Defined.

(** ** Rowids over a session *)

Lemma well_formed_visible (w : manager) :
  well_formed w ->
  exists extra,
    visible (conn w) = committed (conn w) ++ extra
    /\ Forall (fun r => succ_rowid (committed (conn w)) <= row_id r) extra.
Proof.
  unfold well_formed, visible. destruct (pending (conn w)); simpl; [auto |].
  intros _. exists []. by rewrite app_nil_r.
Qed.

Lemma well_formed_after_error (rb : bool) (w : manager) :
  well_formed w -> well_formed (after_error rb w).
Proof. destruct rb; [intros _; exact I | auto]. Qed.

Lemma committed_after_error (rb : bool) (w : manager) :
  committed (conn (after_error rb w)) = committed (conn w).
Proof. by destruct rb. Qed.

Lemma succ_rowid_after_error (rb : bool) (w : manager) :
  well_formed w ->
  succ_rowid (visible (conn (after_error rb w))) <= succ_rowid (visible (conn w)).
Proof.
  intros (extra & Hv & Hextra)%well_formed_visible.
  destruct rb; [| simpl; lia]. unfold visible at 1. simpl.
  rewrite Hv. by apply succ_rowid_app_le.
Qed.

(** Below the 64-bit ceiling, a call either hands out the next rowid and
    commits what the connection sees plus the new row, or hands out nothing
    and leaves the durable table as it was; what the connection sees grows
    by one rowid at most. *)
Lemma step_cases (o : op) (w : manager) (r : reply) (w' : manager) :
  well_formed w -> succ_rowid (visible (conn w)) <= MAX_ROWID ->
  step o w = (r, w') ->
  well_formed w'
  /\ succ_rowid (visible (conn w')) <= succ_rowid (visible (conn w)) + 1
  /\ ((exists m name gender state dressed behaved,
         o = Create m name gender state dressed behaved
         /\ on_execute m = None /\ on_commit m = None
         /\ r = Created (Returns (Some (succ_rowid (visible (conn w)))))
         /\ committed (conn w') =
              visible (conn w)
              ++ [normalized (succ_rowid (visible (conn w))) name gender state
                    dressed behaved])
      \/ (returned_id (o, r) = None
          /\ committed (conn w') = committed (conn w))).
Proof.
  intros Hwf Hmax.
  pose proof (succ_rowid_after_error true w Hwf) as Htrue.
  destruct o as [m name gender state dressed behaved | m]; simpl.
  - rewrite insert_student_run.
    destruct (negb (int64 dressed && int64 behaved)).
    { intros [= <- <-]. split; [exact Hwf |]. split; [lia | auto]. }
    destruct (on_execute m) as [rb |] eqn:Hexec.
    { intros [= <- <-]. split; [by apply well_formed_after_error |].
      split; [pose proof (succ_rowid_after_error rb w Hwf); simpl; lia |].
      right. split; [reflexivity |]. simpl. apply committed_after_error. }
    rewrite next_rowid_below by exact Hmax. cbv zeta.
    set (n := succ_rowid (visible (conn w))) in *.
    set (new := normalized n name gender state dressed behaved).
    replace (insert_row new (visible (conn w))) with (visible (conn w) ++ [new]).
    2:{ symmetry. apply insert_row_last. intros r0 Hr0.
        by apply succ_rowid_gt in Hr0. }
    assert (succ_rowid (visible (conn w) ++ [new]) = n + 1) as Hsnoc
      by (by apply succ_rowid_snoc).
    destruct (well_formed_visible w Hwf) as (extra & Hv & Hextra).
    assert (well_formed (with_pending (visible (conn w) ++ [new]) w)) as Hwfp.
    { unfold well_formed. simpl. exists (extra ++ [new]).
      rewrite Hv at 1. rewrite <- app_assoc. split; [reflexivity |].
      apply Forall_app. split; [exact Hextra |].
      apply Forall_singleton. simpl. subst n. rewrite Hv.
      by apply succ_rowid_app_le. }
    destruct (on_commit m) as [rb |] eqn:Hcommit; intros [= <- <-].
    + split; [by apply well_formed_after_error |]. split.
      * pose proof (succ_rowid_after_error rb _ Hwfp) as Hle.
        change (visible (conn (with_pending (visible (conn w) ++ [new]) w)))
          with (visible (conn w) ++ [new]) in Hle.
        by rewrite Hsnoc in Hle.
      * right. split; [reflexivity |]. simpl.
        by rewrite committed_after_error.
    + split; [exact I |]. split.
      * unfold visible at 1. simpl. lia.
      * left. by exists m, name, gender, state, dressed, behaved.
  - rewrite get_all_scholarship_data_run.
    destruct (on_execute m) as [rb |]; intros [= <- <-].
    + split; [by apply well_formed_after_error |].
      split; [pose proof (succ_rowid_after_error rb w Hwf); simpl; lia |].
      right. split; [reflexivity |]. simpl. apply committed_after_error.
    + split; [exact Hwf |]. split; [lia | auto].
Qed.

Lemma session_invariant (ops : list op) :
  forall (w : manager) (log : list (op * reply)) (w' : manager),
    well_formed w ->
    succ_rowid (visible (conn w)) + Z.of_nat (length ops) <= MAX_ROWID ->
    session ops w = (log, w') ->
    well_formed w'
    /\ (exists more,
          committed (conn w') = committed (conn w) ++ more
          /\ Forall (fun r => succ_rowid (committed (conn w)) <= row_id r) more)
    /\ Forall (fun i => succ_rowid (committed (conn w)) <= i) (returned_ids log)
    /\ StronglySorted Z.lt (returned_ids log)
    /\ (forall m name gender state dressed behaved rowid,
          (Create m name gender state dressed behaved,
           Created (Returns (Some rowid))) ∈ log ->
          (on_execute m = None /\ on_commit m = None)
          /\ normalized rowid name gender state dressed behaved
               ∈ committed (conn w')
          /\ forall r, r ∈ committed (conn w') -> row_id r = rowid ->
               r = normalized rowid name gender state dressed behaved).
Proof.
  induction ops as [| o ops IH]; intros w log w' Hwf Hmax; simpl.
  - intros [= <- <-]. split; [exact Hwf |]. split.
    { exists []. by rewrite app_nil_r. }
    split; [constructor |]. split; [constructor |].
    intros ??????? H. by apply elem_of_nil in H.
  - destruct (step o w) as [r w1] eqn:Hstep.
    destruct (session ops w1) as [log1 w2] eqn:Hrest.
    intros [= <- <-].
    change (length (o :: ops)) with (S (length ops)) in Hmax.
    rewrite Nat2Z.inj_succ in Hmax.
    destruct (step_cases o w r w1 Hwf ltac:(lia) Hstep) as (Hwf1 & Hgrow & Hcase).
    destruct (IH w1 log1 w2 Hwf1 ltac:(lia) Hrest)
      as (Hwf2 & (more1 & Hc2 & Hmore1) & Hids1 & Hsorted1 & Hmem1).
    split; [exact Hwf2 |].
    destruct Hcase
      as [(m & name & gender & state & dressed & behaved
           & -> & Hexec & Hcommit & -> & Hc1)
         | [Hnone Hc1]].
    + apply well_formed_visible in Hwf as (extra & Hv & Hextra).
      set (n := succ_rowid (visible (conn w))) in *.
      set (new := normalized n name gender state dressed behaved) in *.
      assert (succ_rowid (committed (conn w)) <= n) as Hn0.
      { subst n. rewrite Hv. by apply succ_rowid_app_le. }
      assert (n < succ_rowid (committed (conn w1))) as Hn1.
      { apply (succ_rowid_gt _ new). rewrite Hc1.
        apply elem_of_app. right. by apply list_elem_of_singleton. }
      assert (Forall (fun r => succ_rowid (committed (conn w)) <= row_id r)
                (extra ++ [new])) as Hextra'.
      { apply Forall_app. split; [exact Hextra |]. by apply Forall_singleton. }
      assert (committed (conn w1) = committed (conn w) ++ (extra ++ [new])) as Hc1'.
      { by rewrite Hc1, Hv, <- app_assoc. }
      split.
      { exists ((extra ++ [new]) ++ more1). split.
        - by rewrite Hc2, Hc1', <- !app_assoc.
        - apply Forall_app. split; [exact Hextra' |].
          eapply Forall_impl; [exact Hmore1 |]. simpl. intros r Hr. lia. }
      split.
      { unfold returned_ids. simpl. fold (returned_ids log1).
        constructor; [exact Hn0 |].
        eapply Forall_impl; [exact Hids1 |]. simpl. intros i Hi. lia. }
      split.
      { unfold returned_ids. simpl. fold (returned_ids log1).
        constructor; [exact Hsorted1 |].
        eapply Forall_impl; [exact Hids1 |]. simpl. intros i Hi. lia. }
      intros m' name' gender' state' dressed' behaved' rowid Hin.
      apply elem_of_cons in Hin as [Heq | Hin]; [| by apply Hmem1].
      injection Heq as -> -> -> -> -> -> ->. fold n. fold new.
      split; [by split |]. split.
      { rewrite Hc2, Hc1. apply elem_of_app. left.
        apply elem_of_app. right. by apply list_elem_of_singleton. }
      intros r Hr Hid. rewrite Hc2, Hc1 in Hr.
      apply elem_of_app in Hr as [Hr | Hr].
      * apply elem_of_app in Hr as [Hr | Hr].
        -- apply succ_rowid_gt in Hr. fold n in Hr. lia.
        -- by apply list_elem_of_singleton in Hr.
      * rewrite Forall_forall in Hmore1. specialize (Hmore1 r Hr). lia.
    + rewrite Hc1 in *.
      split; [by exists more1 |].
      assert (returned_ids ((o, r) :: log1) = returned_ids log1) as ->.
      { change (returned_ids ((o, r) :: log1))
          with (match returned_id (o, r) with
                | Some i => i :: returned_ids log1
                | None => returned_ids log1
                end).
        by rewrite Hnone. }
      split; [exact Hids1 |]. split; [exact Hsorted1 |].
      intros m name gender state dressed behaved rowid Hin.
      apply elem_of_cons in Hin as [Heq | Hin]; [| by apply Hmem1].
      injection Heq as <- <-. discriminate Hnone.
Qed.



(** ** Binary64: integers below 2^53 and their sums are exact *)

Lemma iter_xO_spec (q n : positive) :
  Zpos (Pos.iter xO q n) = Zpos q * 2 ^ Zpos n
  /\ Zpos (digits2_pos (Pos.iter xO q n)) = Zpos (digits2_pos q) + Zpos n.
Proof.
  induction n as [| n IH] using Pos.peano_ind.
  - simpl. split; lia.
  - rewrite Pos.iter_succ. destruct IH as [IH1 IH2].
    rewrite Pos2Z.inj_succ, Z.pow_succ_r by lia.
    split; [rewrite (Pos2Z.inj_xO (Pos.iter xO q n)), IH1; ring |].
    simpl digits2_pos. rewrite Pos2Z.inj_succ, IH2. lia.
Qed.

Lemma shl_spec (q : positive) (k : Z) :
  0 <= k -> Zpos (shl q k) = Zpos q * 2 ^ k.
Proof.
  destruct k as [| n | n]; simpl; [lia | | lia].
  intros _. apply iter_xO_spec.
Qed.

Lemma shl_digits (q : positive) (k : Z) :
  0 <= k -> Zpos (digits2_pos (shl q k)) = Zpos (digits2_pos q) + k.
Proof.
  destruct k as [| n | n]; simpl; [lia | | lia].
  intros _. apply iter_xO_spec.
Qed.

Lemma shl_shl (q : positive) (a b : Z) :
  0 <= a -> 0 <= b -> shl (shl q a) b = shl q (a + b).
Proof.
  intros Ha Hb. apply Pos2Z.inj.
  rewrite !shl_spec, Z.pow_add_r by lia. ring.
Qed.

Lemma shl_add (a b : positive) (k : Z) :
  0 <= k -> (shl a k + shl b k)%positive = shl (a + b) k.
Proof.
  intros Hk. apply Pos2Z.inj.
  rewrite Pos2Z.inj_add, !shl_spec, Pos2Z.inj_add by lia. ring.
Qed.

Lemma digits2_pos_bounds (q : positive) :
  2 ^ (Zpos (digits2_pos q) - 1) <= Zpos q < 2 ^ Zpos (digits2_pos q).
Proof.
  induction q as [q IH | q IH |]; simpl digits2_pos;
    [rewrite Pos2Z.inj_succ, (Pos2Z.inj_xI q)
    |rewrite Pos2Z.inj_succ, (Pos2Z.inj_xO q)
    |simpl; lia];
    replace (Z.succ (Zpos (digits2_pos q)) - 1)
      with (Z.succ (Zpos (digits2_pos q) - 1)) by lia;
    rewrite !Z.pow_succ_r by lia;
    generalize dependent (2 ^ (Zpos (digits2_pos q) - 1));
    generalize (2 ^ Zpos (digits2_pos q)); intros; lia.
Qed.

Lemma digits2_pos_le (q : positive) (n : Z) :
  0 <= n -> Zpos q < 2 ^ n -> Zpos (digits2_pos q) <= n.
Proof.
  intros Hn Hq. destruct (digits2_pos_bounds q) as [Hlo _].
  destruct (Z_le_gt_dec (Zpos (digits2_pos q)) n) as [| Hgt]; [assumption |].
  exfalso.
  assert (2 ^ n <= 2 ^ (Zpos (digits2_pos q) - 1)) by (apply Z.pow_le_mono_r; lia).
  generalize dependent (2 ^ (Zpos (digits2_pos q) - 1)).
  generalize dependent (2 ^ n). intros; lia.
Qed.

Lemma iter_pos_swap {A} (f : A -> A) (n : positive) (x : A) :
  SpecFloat.iter_pos f n (f x) = f (SpecFloat.iter_pos f n x).
Proof.
  revert x. induction n as [n IH | n IH |]; intros x; simpl.
  - rewrite !IH. reflexivity.
  - rewrite !IH. reflexivity.
  - reflexivity.
Qed.

Lemma iter_pos_succ {A} (f : A -> A) (n : positive) (x : A) :
  SpecFloat.iter_pos f (Pos.succ n) x = f (SpecFloat.iter_pos f n x).
Proof.
  revert x. induction n as [n IH | n IH |]; intros x; simpl.
  - rewrite !IH. rewrite !iter_pos_swap. reflexivity.
  - rewrite !iter_pos_swap. reflexivity.
  - reflexivity.
Qed.

Lemma shr_exact (q n : positive) :
  SpecFloat.iter_pos shr_1 n (Build_shr_record (Zpos (Pos.iter xO q n)) false false)
  = Build_shr_record (Zpos q) false false.
Proof.
  induction n as [| n IH] using Pos.peano_ind.
  - reflexivity.
  - rewrite Pos.iter_succ, iter_pos_succ, <- iter_pos_swap. simpl shr_1.
    exact IH.
Qed.

Lemma shl_align_le (m : positive) (e e' : Z) :
  e' <= e -> shl_align m e e' = (shl m (e - e'), e').
Proof.
  intros H. unfold shl_align, shl.
  destruct (e' - e) as [| d | d] eqn:Hd; try lia.
  - replace (e - e') with 0 by lia. f_equal. lia.
  - replace (e - e') with (Zpos d) by lia. reflexivity.
Qed.

Lemma shl_align_ge (m : positive) (e e' : Z) :
  e <= e' -> shl_align m e e' = (m, e).
Proof.
  intros H. unfold shl_align.
  destruct (e' - e) as [| d | d] eqn:Hd; try lia; reflexivity.
Qed.

Lemma round_aux_canonical (m : positive) (e : Z) :
  Zpos (digits2_pos m) = prec -> -1074 <= e <= 971 ->
  binary_round_aux prec emax false (Zpos m) e loc_Exact = S754_finite false m e.
Proof.
  intros Hm He.
  assert (fexp prec emax (Zpos (digits2_pos m) + e) - e = 0) as H0
    by (rewrite Hm; unfold fexp, emin, prec, emax; lia).
  unfold binary_round_aux, shr_fexp.
  cbn [Zdigits2 shr_record_of_loc]. rewrite H0.
  cbn [shr loc_of_shr_record shr_m round_nearest_even Zdigits2 shr_record_of_loc].
  rewrite H0. cbn [shr shr_m].
  replace (e <=? emax - prec) with true; [reflexivity |].
  symmetry. apply Z.leb_le. unfold emax, prec. lia.
Qed.

Lemma round_aux_shift (m n : positive) (e : Z) :
  Zpos (digits2_pos m) = prec -> -1074 <= e + Zpos n <= 971 ->
  binary_round_aux prec emax false (Zpos (Pos.iter xO m n)) e loc_Exact
  = S754_finite false m (e + Zpos n).
Proof.
  intros Hm He.
  assert (fexp prec emax (Zpos (digits2_pos m) + (e + Zpos n)) - (e + Zpos n) = 0)
    as H0 by (rewrite Hm; unfold fexp, emin, prec, emax; lia).
  assert (fexp prec emax (Zpos (digits2_pos (Pos.iter xO m n)) + e) - e = Zpos n)
    as Hn.
  { destruct (iter_xO_spec m n) as [_ ->]. rewrite Hm.
    unfold fexp, emin, prec, emax. lia. }
  unfold binary_round_aux, shr_fexp.
  cbn [Zdigits2 shr_record_of_loc]. rewrite Hn.
  cbn [shr]. rewrite shr_exact.
  cbn [loc_of_shr_record shr_m round_nearest_even Zdigits2 shr_record_of_loc].
  rewrite H0. cbn [shr shr_m].
  replace (e + Zpos n <=? emax - prec) with true; [reflexivity |].
  symmetry. apply Z.leb_le. unfold emax, prec. lia.
Qed.

Lemma binary_round_exact (q : positive) (k : Z) :
  Zpos q < 2 ^ prec -> 0 <= k <= 1000 ->
  binary_round prec emax false (shl q k) (- k)
  = S754_finite false (mant q) (expo q).
Proof.
  intros Hq Hk. unfold binary_round, mant, expo.
  assert (1 <= Zpos (digits2_pos q) <= prec) as Hd.
  { split; [lia |]. apply digits2_pos_le; [unfold prec; lia | exact Hq]. }
  rewrite shl_digits by lia.
  replace (fexp prec emax (Zpos (digits2_pos q) + k + - k))
    with (Zpos (digits2_pos q) - prec)
    by (unfold fexp, emin, prec, emax in *; lia).
  assert (Zpos (digits2_pos (shl q (prec - Zpos (digits2_pos q)))) = prec) as Hcanon.
  { rewrite shl_digits by lia. lia. }
  destruct (Z_le_gt_dec (Zpos (digits2_pos q) - prec) (- k)) as [Hle | Hgt].
  - rewrite shl_align_le by exact Hle.
    rewrite shl_shl by lia.
    replace (k + (- k - (Zpos (digits2_pos q) - prec)))
      with (prec - Zpos (digits2_pos q)) by lia.
    apply round_aux_canonical; [exact Hcanon | unfold prec in *; lia].
  - rewrite shl_align_ge by lia.
    destruct (Zpos (digits2_pos q) - prec + k) as [| n | n] eqn:Hn; try lia.
    replace (shl q k) with (Pos.iter xO (shl q (prec - Zpos (digits2_pos q))) n).
    2:{ change (Pos.iter xO (shl q (prec - Zpos (digits2_pos q))) n)
          with (shl (shl q (prec - Zpos (digits2_pos q))) (Zpos n)).
        rewrite shl_shl by lia. f_equal. lia. }
    replace (Zpos (digits2_pos q) - prec) with (- k + Zpos n) by lia.
    apply round_aux_shift; [exact Hcanon | unfold prec in *; lia].
Qed.

Lemma Z2SF_pos (q : positive) :
  Zpos q < 2 ^ prec -> Z2SF (Zpos q) = S754_finite false (mant q) (expo q).
Proof.
  intros Hq. unfold Z2SF. simpl binary_normalize.
  apply (binary_round_exact q 0 Hq). lia.
Qed.

(** The sum of two positive integers is computed exactly as long as it stays
    below 2^53. *)
Lemma SF64add_Z2SF (a b : Z) :
  0 < a -> 0 < b -> a + b < 2 ^ prec ->
  SF64add (Z2SF a) (Z2SF b) = Z2SF (a + b).
Proof.
  intros Ha Hb Hab.
  destruct a as [| a | a]; try lia. destruct b as [| b | b]; try lia.
  change (Zpos a + Zpos b) with (Zpos (a + b)) in *.
  assert (Zpos a < 2 ^ prec) as Ha' by lia.
  assert (Zpos b < 2 ^ prec) as Hb' by lia.
  rewrite !Z2SF_pos by assumption.
  unfold SF64add, SFadd, mant, expo.
  assert (1 <= Zpos (digits2_pos a) <= prec) as Hda.
  { split; [lia |]. apply digits2_pos_le; [unfold prec; lia | exact Ha']. }
  assert (1 <= Zpos (digits2_pos b) <= prec) as Hdb.
  { split; [lia |]. apply digits2_pos_le; [unfold prec; lia | exact Hb']. }
  set (ez := Z.min (Zpos (digits2_pos a) - prec) (Zpos (digits2_pos b) - prec)).
  rewrite !shl_align_le by (subst ez; lia).
  cbn [fst cond_Zopp]. rewrite !shl_shl by (subst ez; lia).
  replace (prec - Zpos (digits2_pos a) + (Zpos (digits2_pos a) - prec - ez))
    with (- ez) by lia.
  replace (prec - Zpos (digits2_pos b) + (Zpos (digits2_pos b) - prec - ez))
    with (- ez) by lia.
  change (Zpos (shl a (- ez)) + Zpos (shl b (- ez)))
    with (Zpos (shl a (- ez) + shl b (- ez))).
  rewrite shl_add by (subst ez; lia).
  simpl binary_normalize.
  replace ez with (- - ez) at 2 by lia.
  apply binary_round_exact; [exact Hab | subst ez; unfold prec in *; lia].
Qed.

Lemma SF2Z_Z2SF (z : Z) : 0 <= z < 2 ^ prec -> SF2Z (Z2SF z) = Some z.
Proof.
  intros [Hz Hlt]. destruct z as [| q | q]; [reflexivity | | lia].
  rewrite Z2SF_pos by exact Hlt. unfold SF2Z, mant, expo.
  assert (1 <= Zpos (digits2_pos q) <= prec) as Hd.
  { split; [lia |]. apply digits2_pos_le; [unfold prec; lia | exact Hlt]. }
  rewrite shl_spec by lia.
  destruct (0 <=? Zpos (digits2_pos q) - prec) eqn:He.
  - apply Z.leb_le in He.
    replace (Zpos (digits2_pos q) - prec) with 0 by lia.
    replace (prec - Zpos (digits2_pos q)) with 0 by lia.
    simpl. f_equal. lia.
  - replace (- (Zpos (digits2_pos q) - prec)) with (prec - Zpos (digits2_pos q)) by lia.
    assert (0 < 2 ^ (prec - Zpos (digits2_pos q))) by (apply Z.pow_pos_nonneg; lia).
    rewrite Z.mod_mul, Z.div_mul by lia. reflexivity.
Qed.

(** ** Deduction and net payment *)

(** On each of the sixteen totals the rule table can produce, the product
    with [TAX_RATE] and the difference round to the exact twentieth and the
    exact remainder. *)
Lemma award_exact (student : gmap string value) :
  let t := award_of student in
  SF64mul (Z2SF t) TAX_RATE = Z2SF (t / 20)
  /\ SF64sub (Z2SF t) (Z2SF (t / 20)) = Z2SF (t - t / 20)
  /\ 20 * (t / 20) = t.
Proof.
  unfold award_of.
  destruct (truthy _), (truthy _), (eq_str _ "OSUN"), (eq_str _ "Female");
    vm_compute; auto.
Qed.

Lemma row_award_range (r : row) :
  20000 <= row_award r <= 51000 /\ 20 * (row_award r / 20) = row_award r.
Proof.
  unfold row_award.
  destruct (row_well_dressed r =? 0), (row_well_behaved r =? 0),
    (decide (row_state r = "OSUN")), (decide (row_gender r = "Female"));
    vm_compute; repeat split; intros; discriminate.
Qed.

(** [TAX_RATE] itself is not one twentieth: 20 times its mantissa misses
    2^57 by 8. *)
Lemma TAX_RATE_inexact :
  TAX_RATE = S754_finite false 7205759403792794 (-57)
  /\ 20 * 7205759403792794 = 2 ^ 57 + 8.
Proof. split; reflexivity. Qed.

Lemma sums_range (rows : list row) :
  20 * sum_deductions rows = sum_awards rows
  /\ sum_nets rows = sum_awards rows - sum_deductions rows
  /\ 1000 * Z.of_nat (length rows) <= sum_deductions rows
       <= 2550 * Z.of_nat (length rows)
  /\ 0 <= sum_nets rows <= 48450 * Z.of_nat (length rows).
Proof.
  induction rows as [| r rows IH]; [simpl; lia |].
  cbn [sum_deductions sum_awards sum_nets foldr length].
  fold (sum_deductions rows) (sum_awards rows) (sum_nets rows).
  destruct (row_award_range r) as [Hr Hdiv].
  rewrite Nat2Z.inj_succ. lia.
Qed.

Lemma py_add_running (D d : Z) :
  0 <= D -> 0 < d -> D + d < 2 ^ prec ->
  py_add (running D) (VFloat (Z2SF d)) = Returns (running (D + d)).
Proof.
  intros HD Hd Hlt. unfold running.
  destruct (Z.eqb_spec (D + d) 0) as [| _]; [lia |].
  destruct (Z.eqb_spec D 0) as [-> | HD0].
  - destruct d as [| q | q]; try lia.
    rewrite Z.add_0_l, Z2SF_pos by lia. reflexivity.
  - unfold py_add, as_number. rewrite SF64add_Z2SF by lia. reflexivity.
Qed.

Lemma report_totals_exact (rows : list row) :
  forall A D N : Z,
    0 <= D -> 0 <= N ->
    D + sum_deductions rows < 2 ^ prec -> N + sum_nets rows < 2 ^ prec ->
    report_totals (entry_of_row <$> rows) (VInt A, running D, running N)
    = Returns (VInt (A + sum_awards rows),
               running (D + sum_deductions rows),
               running (N + sum_nets rows)).
Proof.
  induction rows as [| r rows IH]; intros A D N HD HN HDlt HNlt.
  - simpl. by rewrite !Z.add_0_r.
  - cbn [sum_deductions sum_awards sum_nets foldr] in *.
    fold (sum_deductions rows) (sum_awards rows) (sum_nets rows) in *.
    destruct (row_award_range r) as [Hr Hdiv].
    destruct (sums_range rows) as (_ & _ & Hd & Hn).
    destruct (entry_of_row_fields r) as (_ & _ & _ & _ & _ & _ & Ht & Hded & Hnet).
    rewrite fmap_cons. cbn [report_totals]. unfold subscript.
    rewrite Ht, Hded, Hnet.
    unfold mbind, outcome_mbind. cbn [outcome_bind].
    change (py_add (VInt A) (VInt (row_award r)))
      with (Returns (VInt (A + row_award r)) : outcome value).
    cbn [outcome_bind].
    rewrite !py_add_running by lia. cbn [outcome_bind].
    rewrite IH by lia. by rewrite !Z.add_assoc.
Qed.

(** C2: the calculator returns as deduction the total multiplied by the
    fixed rate 0.05 and as net payment the total minus that deduction, the
    deduction taken as the product gave it.  Both are binary64 numbers; on
    every total the rules produce they are the exact twentieth and the exact
    remainder, and the sums the report forms over the listed records are
    exact as long as they stay below 2^53, so that two decimals show no
    drift. *)
Theorem C2_deduction_and_net (student : gmap string value) (w : manager) :
  (exists results t d n,
     (calculate_award student).1 = Returns results
     /\ results !! "total_award" = Some (VInt t)
     /\ results !! "deduction" = Some (VFloat d)
     /\ results !! "net_payment" = Some (VFloat n)
     /\ d = SF64mul (Z2SF t) TAX_RATE
     /\ n = SF64sub (Z2SF t) d
     /\ SF2Z d = Some (t / 20) /\ 20 * (t / 20) = t
     /\ SF2Z n = Some (t - t / 20))
  /\ (let rows := visible (conn w) in
      rows <> [] -> 51000 * Z.of_nat (length rows) < 2 ^ 53 ->
      exists data D N,
        (get_all_scholarship_data healthy w).1 = Returns data
        /\ grand_totals data = Returns (VInt (sum_awards rows), VFloat D, VFloat N)
        /\ SF2Z D = Some (sum_awards rows / 20)
        /\ 20 * (sum_awards rows / 20) = sum_awards rows
        /\ SF2Z N = Some (sum_awards rows - sum_awards rows / 20)).
Proof.
  split.
  - destruct (calculate_award_returns student) as (results & Hrun & Ht & Hd & Hn).
    destruct (award_exact student) as (Hmul & Hsub & Hdiv).
    destruct (award_of_bounds student) as [Hlo Hhi].
    exists results, (award_of student), (Z2SF (award_of student / 20)),
      (Z2SF (award_of student - award_of student / 20)).
    rewrite Hrun. repeat split; try assumption.
    + by rewrite Hmul.
    + by rewrite Hsub.
    + apply SF2Z_Z2SF. unfold prec. lia.
    + apply SF2Z_Z2SF. unfold prec. lia.
  - intros rows Hne Hlen.
    destruct (sums_range rows) as (Hdiv & Hnets & Hd & Hn).
    assert (0 < Z.of_nat (length rows)) as Hpos.
    { destruct rows; [congruence | simpl; lia]. }
    assert (sum_awards rows / 20 = sum_deductions rows) as Hq.
    { rewrite <- Hdiv, Z.mul_comm. apply Z.div_mul. lia. }
    exists (entry_of_row <$> rows), (Z2SF (sum_deductions rows)),
      (Z2SF (sum_nets rows)).
    rewrite get_all_scholarship_data_run. split; [reflexivity |].
    unfold grand_totals.
    change (VInt 0, VInt 0, VInt 0) with (VInt 0, running 0, running 0).
    rewrite report_totals_exact by (unfold prec; lia).
    rewrite !Z.add_0_l. unfold running.
    destruct (Z.eqb_spec (sum_deductions rows) 0) as [| _]; [lia |].
    destruct (Z.eqb_spec (sum_nets rows) 0) as [| _]; [lia |].
    split; [reflexivity |]. rewrite Hq.
    split; [apply SF2Z_Z2SF; unfold prec; lia |].
    split; [exact Hdiv |].
    rewrite <- Hnets. apply SF2Z_Z2SF. unfold prec. lia.
Qed.

Lemma C2_deduction_and_net_witness :
  let w := Manager (Connection [normalized 1 "Ada Obi" "female" " osun " 1 1] None) [] in
  exists data D N,
    (get_all_scholarship_data healthy w).1 = Returns data
    /\ grand_totals data = Returns (VInt 51000, VFloat D, VFloat N)
    /\ SF2Z D = Some 2550
    /\ SF2Z N = Some 48450.
Proof.
  intros w.
  destruct (C2_deduction_and_net ∅ w) as [_ H].
  destruct H as (data & D & N & Hrun & Hsum & HD & _ & HN);
    [discriminate | reflexivity |].
  exists data, D, N. auto.
Defined.

(** ** Two worked records *)

(** ("Ada Obi", "female", " osun ", 1, 1) on an empty store: stored as
    "Female" and "OSUN", listed with total 51000, deduction 2550.0 and net
    payment 48450.0. *)
Lemma scenario_ada_obi :
  exists w student,
    insert_student healthy "Ada Obi" "female" " osun " 1 1
      (Manager (Connection [] None) []) = (Returns (Some 1), w)
    /\ committed (conn w) = [Row 1 "Ada Obi" "Female" "OSUN" 1 1]
    /\ (get_all_scholarship_data healthy w).1 = Returns [student]
    /\ student !! "gender" = Some (VStr "Female")
    /\ student !! "state" = Some (VStr "OSUN")
    /\ student !! "total_award" = Some (VInt 51000)
    /\ student !! "deduction" = Some (VFloat (Z2SF 2550))
    /\ student !! "net_payment" = Some (VFloat (Z2SF 48450)).
Proof.
  eexists. eexists. split; [reflexivity |]. split; [reflexivity |].
  rewrite get_all_scholarship_data_run. split; [reflexivity |].
  destruct (entry_of_row_fields (Row 1 "Ada Obi" "Female" "OSUN" 1 1))
    as (_ & _ & Hg & Hs & _ & _ & Ht & Hd & Hn).
  repeat split; assumption.
Qed.

(** ("Musa Bello", "Male", "kano", 0, 0): total 20000, deduction 1000.0 and
    net payment 19000.0. *)
Lemma scenario_musa_bello :
  exists w student,
    insert_student healthy "Musa Bello" "Male" "kano" 0 0
      (Manager (Connection [] None) []) = (Returns (Some 1), w)
    /\ committed (conn w) = [Row 1 "Musa Bello" "Male" "KANO" 0 0]
    /\ (get_all_scholarship_data healthy w).1 = Returns [student]
    /\ student !! "total_award" = Some (VInt 20000)
    /\ student !! "deduction" = Some (VFloat (Z2SF 1000))
    /\ student !! "net_payment" = Some (VFloat (Z2SF 19000)).
Proof.
  eexists. eexists. split; [reflexivity |]. split; [reflexivity |].
  rewrite get_all_scholarship_data_run. split; [reflexivity |].
  destruct (entry_of_row_fields (Row 1 "Musa Bello" "Male" "KANO" 0 0))
    as (_ & _ & _ & _ & _ & _ & Ht & Hd & Hn).
  repeat split; assumption.
Qed.

(** * Further properties of the store *)

(** ** No rowid occurs twice *)

Lemma next_rowid_unused (draws : list Z) (rows : list row) (rowid : Z) :
  next_rowid draws rows = Some rowid ->
  forall r, r ∈ rows -> row_id r <> rowid.
Proof.
  unfold next_rowid. destruct (succ_rowid rows <=? MAX_ROWID).
  - intros [= <-] r Hr. apply succ_rowid_gt in Hr. lia.
  - intros [_ Hunused]%find_some r Hr. unfold unused_rowid in Hunused.
    apply andb_prop in Hunused as [_ Hall].
    rewrite forallb_forall in Hall.
    specialize (Hall r (proj1 (list_elem_of_In _ _) Hr)).
    apply negb_true_iff, Z.eqb_neq in Hall. exact Hall.
Qed.

Lemma insert_row_increasing (new : row) (rows : list row) :
  ids_increasing rows ->
  (forall r, r ∈ rows -> row_id r <> row_id new) ->
  ids_increasing (insert_row new rows).
Proof.
  unfold ids_increasing.
  induction rows as [| r0 rows IH]; intros Hsorted Hnew; simpl.
  - repeat constructor.
  - rewrite fmap_cons in Hsorted.
    apply StronglySorted_inv in Hsorted as [Hrest Hhead].
    assert (row_id r0 <> row_id new) as Hne by apply Hnew, list_elem_of_here.
    destruct (Z.ltb_spec (row_id new) (row_id r0)) as [Hlt | Hge].
    + rewrite !fmap_cons. constructor.
      * constructor; assumption.
      * constructor; [exact Hlt |].
        eapply Forall_impl; [exact Hhead |]. simpl. intros i Hi. lia.
    + rewrite fmap_cons. constructor.
      * apply IH; [exact Hrest |].
        intros r Hr. by apply Hnew, list_elem_of_further.
      * rewrite Forall_forall. intros i (r & -> & Hr)%list_elem_of_fmap.
        apply insert_row_elem in Hr as [-> | Hr]; [lia |].
        rewrite Forall_forall in Hhead. apply Hhead.
        apply list_elem_of_fmap. by exists r.
Qed.

Lemma ids_increasing_after_error (rb : bool) (w : manager) :
  ids_increasing (committed (conn w)) -> ids_increasing (visible (conn w)) ->
  ids_increasing (committed (conn (after_error rb w)))
  /\ ids_increasing (visible (conn (after_error rb w))).
Proof. destruct rb; auto. Qed.

Lemma step_ids_increasing (o : op) (w : manager) (r : reply) (w' : manager) :
  ids_increasing (committed (conn w)) -> ids_increasing (visible (conn w)) ->
  step o w = (r, w') ->
  (ids_increasing (committed (conn w')) /\ ids_increasing (visible (conn w')))
  /\ forall m data, o = ListAll m -> r = Listed (Returns data) ->
       exists rows, ids_increasing rows /\ data = entry_of_row <$> rows.
Proof.
  intros Hc Hv. destruct o as [m name gender state dressed behaved | m]; simpl.
  - rewrite insert_student_run.
    destruct (negb (int64 dressed && int64 behaved)).
    { intros [= <- <-]. split; [auto | discriminate]. }
    destruct (on_execute m) as [rb |].
    { intros [= <- <-]. split; [| discriminate].
      apply (ids_increasing_after_error rb w Hc Hv). }
    destruct (next_rowid (rowid_draws m) (visible (conn w))) as [rowid |] eqn:Hnext.
    2:{ intros [= <- <-]. split; [auto | discriminate]. }
    cbv zeta.
    assert (ids_increasing
              (insert_row (normalized rowid name gender state dressed behaved)
                 (visible (conn w)))) as Hnew.
    { apply insert_row_increasing; [exact Hv |].
      exact (next_rowid_unused _ _ _ Hnext). }
    destruct (on_commit m) as [rb |]; intros [= <- <-]; (split; [| discriminate]).
    + apply (ids_increasing_after_error rb (with_pending _ w)); assumption.
    + split; assumption.
  - rewrite get_all_scholarship_data_run.
    destruct (on_execute m) as [rb |]; intros [= <- <-].
    + split; [apply (ids_increasing_after_error rb w Hc Hv) |].
      intros m' data _ [= <-]. exists []. split; [constructor | reflexivity].
    + split; [auto |]. intros m' data _ [= <-]. by exists (visible (conn w)).
Qed.

Lemma session_ids_increasing (ops : list op) :
  forall (w : manager) (log : list (op * reply)) (w' : manager),
    ids_increasing (committed (conn w)) -> ids_increasing (visible (conn w)) ->
    session ops w = (log, w') ->
    (ids_increasing (committed (conn w')) /\ ids_increasing (visible (conn w')))
    /\ forall m data, (ListAll m, Listed (Returns data)) ∈ log ->
         exists rows, ids_increasing rows /\ data = entry_of_row <$> rows.
Proof.
  induction ops as [| o ops IH]; intros w log w' Hc Hv; simpl.
  - intros [= <- <-]. split; [auto |]. intros m data H. by apply elem_of_nil in H.
  - destruct (step o w) as [r w1] eqn:Hstep.
    destruct (session ops w1) as [log1 w2] eqn:Hrest.
    intros [= <- <-].
    destruct (step_ids_increasing o w r w1 Hc Hv Hstep) as [[Hc1 Hv1] Hlist].
    destruct (IH w1 log1 w2 Hc1 Hv1 Hrest) as [Hfinal Hlists].
    split; [exact Hfinal |].
    intros m data [[= <- <-] | Hin]%elem_of_cons; [by eapply Hlist | by eapply Hlists].
Qed.

(** Uniqueness of the primary key: on a table whose rowids are strictly
    increasing, whatever the session and whatever fails in it (the 64-bit
    ceiling included), the durable table and the connection's view keep
    strictly increasing rowids, and so does every listing returned. *)
Theorem rowids_stay_unique (rows : list row) (ops : list op) :
  ids_increasing rows ->
  let run := session ops (Manager (Connection rows None) []) in
  ids_increasing (committed (conn run.2))
  /\ ids_increasing (visible (conn run.2))
  /\ NoDup (row_id <$> visible (conn run.2))
  /\ forall m data, (ListAll m, Listed (Returns data)) ∈ run.1 ->
       exists listed, ids_increasing listed /\ data = entry_of_row <$> listed.
Proof.
  intros Hrows run. subst run.
  destruct (session ops _) as [log final] eqn:Hrun. simpl.
  destruct (session_ids_increasing ops
              (Manager (Connection rows None) []) log final Hrows Hrows Hrun)
    as [[Hc Hv] Hlists].
  split; [exact Hc |]. split; [exact Hv |]. split; [| exact Hlists].
  unfold ids_increasing in Hv. clear -Hv.
  induction Hv as [| i ids Hsorted IH Hall]; constructor; [| exact IH].
  intros Hin. rewrite Forall_forall in Hall. specialize (Hall i Hin). lia.
Qed.

Lemma rowids_stay_unique_witness :
  let busy := {| on_execute := None; on_commit := Some false; rowid_draws := [] |} in
  let ops := [Create busy "Ada Obi" "female" " osun " 1 1;
              Create healthy "Musa Bello" "Male" "kano" 0 0] in
  NoDup (row_id <$> visible (conn (session ops
           (Manager (Connection [Row 4 "Eze" "Male" "IMO" 0 1] None) [])).2)).
Proof.
  intros busy ops.
  apply (rowids_stay_unique [Row 4 "Eze" "Male" "IMO" 0 1] ops).
  repeat constructor.
Defined.

(** ** The store only grows *)

(** Below the 64-bit ceiling, whatever the session and whatever fails in it,
    the rows the store held when it was opened are still there at the end,
    unchanged and in place, followed by rows with larger rowids: nothing is
    deleted or rewritten. *)
Theorem store_append_only (rows : list row) (ops : list op) :
  succ_rowid rows + Z.of_nat (length ops) <= MAX_ROWID ->
  let final := (session ops (Manager (Connection rows None) [])).2 in
  exists more,
    committed (conn final) = rows ++ more
    /\ Forall (fun r => forall r0, r0 ∈ rows -> row_id r0 < row_id r) more.
Proof.
  intros Hmax final. subst final.
  destruct (session ops _) as [log final] eqn:Hrun. simpl.
  destruct (session_invariant ops (Manager (Connection rows None) []) log final
              I Hmax Hrun) as (_ & (more & Hc & Hmore) & _).
  exists more. split; [exact Hc |].
  eapply Forall_impl; [exact Hmore |]. simpl.
  intros r Hr r0 Hr0. apply succ_rowid_gt in Hr0. lia.
Qed.

Lemma store_append_only_witness :
  let busy := {| on_execute := None; on_commit := Some true; rowid_draws := [] |} in
  let ops := [Create busy "Ada Obi" "female" " osun " 1 1;
              ListAll healthy;
              Create healthy "Musa Bello" "Male" "kano" 0 0] in
  exists more,
    committed (conn (session ops
      (Manager (Connection [Row 4 "Eze" "Male" "IMO" 0 1] None) [])).2)
    = [Row 4 "Eze" "Male" "IMO" 0 1] ++ more.
Proof.
  intros busy ops.
  destruct (store_append_only [Row 4 "Eze" "Male" "IMO" 0 1] ops)
    as (more & Hc & _); [vm_compute; discriminate |].
  by exists more.
Defined.

(** ** A run without failures *)

Lemma session_healthy (fs : list fields) :
  forall w : manager,
    pending (conn w) = None ->
    Forall (fun f => int64 (f_dressed f) = true /\ int64 (f_behaved f) = true) fs ->
    succ_rowid (committed (conn w)) + Z.of_nat (length fs) <= MAX_ROWID ->
    let run := session (create_healthy <$> fs) w in
    returned_ids run.1 = ids_from (succ_rowid (committed (conn w))) (length fs)
    /\ committed (conn run.2)
       = committed (conn w) ++ normalized_from (succ_rowid (committed (conn w))) fs
    /\ pending (conn run.2) = None
    /\ dialogs run.2 = dialogs w.
Proof.
  induction fs as [| f fs IH]; intros w Hp Hflags Hmax.
  - simpl. by rewrite app_nil_r.
  - apply Forall_cons in Hflags as [[Hd Hb] Hflags].
    change (length (f :: fs)) with (S (length fs)) in *.
    rewrite Nat2Z.inj_succ in Hmax.
    assert (visible (conn w) = committed (conn w)) as Hv
      by (unfold visible; by rewrite Hp).
    pose proof (insert_student_healthy (f_name f) (f_gender f) (f_state f)
                  (f_dressed f) (f_behaved f) w Hd Hb) as Hrun.
    rewrite Hv in Hrun. specialize (Hrun ltac:(lia)). cbv zeta in Hrun.
    set (n := succ_rowid (committed (conn w))) in *.
    set (new := normalized n (f_name f) (f_gender f) (f_state f)
                  (f_dressed f) (f_behaved f)) in *.
    set (w1 := with_committed (committed (conn w) ++ [new]) w) in *.
    assert (succ_rowid (committed (conn w1)) = n + 1) as Hsucc
      by (apply (succ_rowid_snoc (committed (conn w)) new); reflexivity).
    pose proof (IH w1 eq_refl Hflags ltac:(lia)) as IHw1. cbv zeta in IHw1.
    rewrite Hsucc in IHw1.
    rewrite fmap_cons. cbn [session step create_healthy]. rewrite Hrun.
    destruct (session (create_healthy <$> fs) w1) as [log w2].
    destruct IHw1 as (Hids & Hc & Hp' & Hdlg). cbn [fst snd] in *.
    split.
    { unfold returned_ids. cbn [omap list_omap returned_id].
      fold (returned_ids log). rewrite Hids. reflexivity. }
    split.
    { rewrite Hc. subst w1.
      cbn [committed conn with_committed normalized_from].
      by rewrite <- app_assoc. }
    split; assumption.
Qed.

(** On a healthy medium, with flags within 64 bits and below the rowid
    ceiling, a run of creations returns consecutive ids starting one above
    the largest id in the store, appends exactly the normalized records in
    the order of the calls, shows no message box and leaves nothing
    uncommitted. *)
Theorem healthy_run_appends_in_order (rows : list row) (fs : list fields) :
  Forall (fun f => int64 (f_dressed f) = true /\ int64 (f_behaved f) = true) fs ->
  succ_rowid rows + Z.of_nat (length fs) <= MAX_ROWID ->
  let run := session (create_healthy <$> fs) (Manager (Connection rows None) []) in
  returned_ids run.1 = ids_from (succ_rowid rows) (length fs)
  /\ committed (conn run.2) = rows ++ normalized_from (succ_rowid rows) fs
  /\ pending (conn run.2) = None
  /\ dialogs run.2 = [].
Proof.
  intros Hflags Hmax.
  exact (session_healthy fs (Manager (Connection rows None) []) eq_refl Hflags Hmax).
Qed.

Lemma healthy_run_appends_in_order_witness :
  let fs := [Fields "Ada Obi" "female" " osun " 1 1;
             Fields "Musa Bello" "Male" "kano" 0 0] in
  let run := session (create_healthy <$> fs)
               (Manager (Connection [Row 4 "Eze" "Male" "IMO" 0 1] None) []) in
  returned_ids run.1 = [5; 6]
  /\ committed (conn run.2)
     = [Row 4 "Eze" "Male" "IMO" 0 1;
        Row 5 "Ada Obi" "Female" "OSUN" 1 1;
        Row 6 "Musa Bello" "Male" "KANO" 0 0].
Proof.
  intros fs run.
  destruct (healthy_run_appends_in_order [Row 4 "Eze" "Male" "IMO" 0 1] fs)
    as (Hids & Hc & _).
  - repeat constructor.
  - vm_compute. discriminate.
  - split; [exact Hids | exact Hc].
Defined.

(** ** The listing reads and nothing else *)

(** [get_all_scholarship_data] never raises and never changes the durable
    table; when its read succeeds it changes nothing at all, and when the
    read fails it shows one error box. *)
Theorem listing_is_read_only (m : medium) (w : manager) :
  (exists data, (get_all_scholarship_data m w).1 = Returns data)
  /\ committed (conn (get_all_scholarship_data m w).2) = committed (conn w)
  /\ match on_execute m with
     | None => (get_all_scholarship_data m w).2 = w
     | Some _ =>
         dialogs (get_all_scholarship_data m w).2
         = dialogs w ++ [("Database Error", "Error fetching data: ")]
     end.
Proof.
  rewrite get_all_scholarship_data_run.
  destruct (on_execute m) as [rb |]; simpl.
  - split; [by eexists |]. split; [apply committed_after_error |].
    by destruct rb.
  - split; [by eexists |]. split; reflexivity.
Qed.

(** * Further properties of the normalization *)





















(** What the window offers is stored as offered: every entry of the state
    menu and both gender choices are left unchanged by the normalization;
    the 37 menu entries are pairwise distinct and "OSUN" is one of them. *)
Theorem menu_choices_stored_verbatim :
  length NIGERIAN_STATES = 37%nat
  /\ NoDup NIGERIAN_STATES
  /\ "OSUN" ∈ NIGERIAN_STATES
  /\ Forall (fun state => upper (strip state) = state) NIGERIAN_STATES
  /\ Forall (fun gender => capitalize (strip gender) = gender) ["Male"; "Female"].
Proof.
  split; [reflexivity |].
  split; [apply (bool_decide_unpack _); vm_compute; exact I |].
  split; [apply (bool_decide_unpack _); vm_compute; exact I |].
  split; repeat (constructor; [reflexivity |]); constructor.
Qed.

(** * Further properties of the listing and the report *)

Lemma entry_of_row_dom (r : row) : dom (entry_of_row r) = listed_keys.
Proof.
  unfold entry_of_row, award_dict, student_of_row, listed_keys.
  rewrite dom_union_L, !dom_insert_L, !dom_singleton_L. set_solver.
Qed.

Lemma listing_entries (m : medium) (w : manager) (data : list (gmap string value)) :
  (get_all_scholarship_data m w).1 = Returns data ->
  exists rows, data = entry_of_row <$> rows.
Proof.
  rewrite get_all_scholarship_data_run.
  destruct (on_execute m); intros [= <-]; [by exists [] | by eexists].
Qed.

(** Every dictionary of a listing has exactly the six fields of the row and
    the three results: the merge of the results overwrites no field.  The
    calculator run again on a listed dictionary returns the results the
    dictionary already carries. *)
Theorem listed_records_are_consistent (m : medium) (w : manager)
    (data : list (gmap string value)) (student : gmap string value) :
  (get_all_scholarship_data m w).1 = Returns data ->
  student ∈ data ->
  dom student = listed_keys
  /\ exists results,
       (calculate_award student).1 = Returns results
       /\ results ⊆ student.
Proof.
  intros (rows & ->)%listing_entries (r & -> & _)%list_elem_of_fmap.
  split; [apply entry_of_row_dom |].
  eexists. rewrite calculate_award_run. split; [reflexivity |].
  rewrite entry_of_row_award. unfold entry_of_row. rewrite award_of_row.
  apply map_union_subseteq_l.
Qed.

Lemma listed_records_are_consistent_witness :
  dom (entry_of_row (Row 1 "Ada Obi" "Female" "OSUN" 1 1)) = listed_keys.
Proof.
  apply (listed_records_are_consistent healthy
           (Manager (Connection [Row 1 "Ada Obi" "Female" "OSUN" 1 1] None) [])
           [entry_of_row (Row 1 "Ada Obi" "Female" "OSUN" 1 1)]).
  - rewrite get_all_scholarship_data_run. reflexivity.
  - apply list_elem_of_here.
Defined.

Lemma report_totals_total (rows : list row) :
  forall (A : Z) (D N : value),
    (D = VInt 0 \/ exists f, D = VFloat f) ->
    (N = VInt 0 \/ exists f, N = VFloat f) ->
    exists f g,
      report_totals (entry_of_row <$> rows) (VInt A, D, N)
      = Returns (VInt (A + sum_awards rows),
                 match rows with [] => D | _ => VFloat f end,
                 match rows with [] => N | _ => VFloat g end).
Proof.
  induction rows as [| r rows IH]; intros A D N HD HN.
  - exists (S754_zero false), (S754_zero false). simpl. by rewrite Z.add_0_r.
  - destruct (entry_of_row_fields r) as (_ & _ & _ & _ & _ & _ & Ht & Hded & Hnet).
    rewrite fmap_cons. cbn [report_totals]. unfold subscript.
    rewrite Ht, Hded, Hnet.
    unfold mbind, outcome_mbind. cbn [outcome_bind].
    change (py_add (VInt A) (VInt (row_award r)))
      with (Returns (VInt (A + row_award r)) : outcome value).
    cbn [outcome_bind].
    assert (forall (v : value) (x : spec_float),
              (v = VInt 0 \/ exists f, v = VFloat f) ->
              exists f, py_add v (VFloat x) = Returns (VFloat f)) as Hadd.
    { intros v x [-> | [f ->]]; eexists; reflexivity. }
    destruct (Hadd D (Z2SF (row_award r / 20)) HD) as [d ->].
    cbn [outcome_bind].
    destruct (Hadd N (Z2SF (row_award r - row_award r / 20)) HN) as [n ->].
    cbn [outcome_bind].
    destruct (IH (A + row_award r) (VFloat d) (VFloat n)) as (f & g & ->);
      [right; by eexists | right; by eexists |].
    exists (match rows with [] => d | _ => f end),
      (match rows with [] => n | _ => g end).
    cbn [sum_awards foldr]. fold (sum_awards rows). rewrite Z.add_assoc.
    by destruct rows.
Qed.

(** The sums of the report never raise on what a listing returns, however
    many records it has, and the award total is exact: it is the sum of the
    totals the calculator gives for the listed records. *)
Theorem report_total_is_sum_of_awards (m : medium) (w : manager)
    (data : list (gmap string value)) :
  (get_all_scholarship_data m w).1 = Returns data ->
  exists total_deduction_sum total_net_sum,
    grand_totals data =
      Returns (VInt (foldr (fun student acc => award_of student + acc) 0 data),
               total_deduction_sum, total_net_sum).
Proof.
  intros (rows & ->)%listing_entries. unfold grand_totals.
  destruct (report_totals_total rows 0 (VInt 0) (VInt 0)) as (f & g & ->); auto.
  assert (foldr (fun student acc => award_of student + acc) 0 (entry_of_row <$> rows)
          = sum_awards rows) as ->.
  { induction rows as [| r rows IH]; [reflexivity |].
    rewrite fmap_cons. cbn [foldr sum_awards]. fold (sum_awards rows).
    by rewrite IH, entry_of_row_award. }
  rewrite Z.add_0_l. by eexists _, _.
Qed.

Lemma report_total_is_sum_of_awards_witness :
  exists total_deduction_sum total_net_sum,
    grand_totals (entry_of_row <$> [Row 1 "Ada Obi" "Female" "OSUN" 1 1;
                                    Row 2 "Musa Bello" "Male" "KANO" 0 0]) =
      Returns (VInt (foldr (fun student acc => award_of student + acc) 0
                       (entry_of_row <$> [Row 1 "Ada Obi" "Female" "OSUN" 1 1;
                                          Row 2 "Musa Bello" "Male" "KANO" 0 0])),
               total_deduction_sum, total_net_sum).
Proof.
  apply (report_total_is_sum_of_awards healthy
           (Manager (Connection [Row 1 "Ada Obi" "Female" "OSUN" 1 1;
                                 Row 2 "Musa Bello" "Male" "KANO" 0 0] None) [])).
  rewrite get_all_scholarship_data_run. reflexivity.
Defined.

(** * Properties of the window *)

Lemma update_report_run (m : medium) (a : app) :
  exists totals,
    update_report m a =
      match on_execute m with
      | Some rb =>
          (Returns tt,
           with_report no_records
             (with_manager
                (notified "Database Error" "Error fetching data: "
                   (after_error rb (app_manager a))) a))
      | None =>
          match visible (conn (app_manager a)) with
          | [] => (Returns tt, with_report no_records a)
          | rows => (Returns tt, with_report (Report (entry_of_row <$> rows) totals) a)
          end
      end.
Proof.
  unfold update_report, mbind, Py_bind, on_manager, lift, set_report.
  rewrite get_all_scholarship_data_run.
  destruct (on_execute m) as [rb |].
  { exists (VInt 0, VInt 0, VInt 0). reflexivity. }
  destruct (visible (conn (app_manager a))) as [| r rows] eqn:Hv.
  { exists (VInt 0, VInt 0, VInt 0). destruct a as [[]]. reflexivity. }
  destruct (report_totals_total (r :: rows) 0 (VInt 0) (VInt 0))
    as (f & g & Htot); auto.
  eexists. rewrite fmap_cons. unfold grand_totals.
  rewrite <- (fmap_cons entry_of_row r rows), Htot.
  destruct a as [[]]. reflexivity.
Qed.

(** The refresh of the report never raises and never touches the input
    variables or the durable table.  When its read fails it shows the text
    for an empty store, whatever the store holds; otherwise it shows that
    text on an empty table and the table of the listed records on any
    other. *)
Theorem update_report_shows (m : medium) (a : app) :
  exists a',
    update_report m a = (Returns tt, a')
    /\ name_var a' = name_var a /\ gender_var a' = gender_var a
    /\ state_var a' = state_var a
    /\ dressed_var a' = dressed_var a /\ behaved_var a' = behaved_var a
    /\ committed (conn (app_manager a')) = committed (conn (app_manager a))
    /\ match on_execute m, visible (conn (app_manager a)) with
       | Some _, _ => report_text a' = no_records
       | None, [] => report_text a' = no_records
       | None, rows =>
           exists totals, report_text a' = Report (entry_of_row <$> rows) totals
       end.
Proof.
  destruct (update_report_run m a) as [totals ->].
  destruct (on_execute m) as [rb |].
  - eexists. split; [reflexivity |]. simpl.
    repeat split. apply committed_after_error.
  - destruct (visible (conn (app_manager a))) as [| r rows];
      eexists; (split; [reflexivity |]); simpl; repeat split.
    by exists totals.
Qed.

Lemma save_student_run (mi mr : medium) (a : app) :
  save_student mi mr a =
    if String.eqb (name_var a) "" || String.eqb (gender_var a) ""
       || String.eqb (state_var a) ""
    then
      (Returns tt,
       with_manager
         (notified "Input Error"
            "Please fill in all mandatory fields (Name, Gender, State)."
            (app_manager a)) a)
    else
      match insert_student mi (name_var a) (gender_var a) (state_var a)
              (dressed_var a) (behaved_var a) (app_manager a) with
      | (Raises e, w) => (Raises e, with_manager w a)
      | (Returns None, w) => (Returns tt, with_manager w a)
      | (Returns (Some rowid), w) =>
          if rowid =? 0 then (Returns tt, with_manager w a)
          else
            (_ ← update_report mr; clear_inputs)
              (with_manager
                 (notified "Success" (success_text (name_var a) rowid) w) a)
      end.
Proof.
  unfold save_student. cbv zeta. unfold truthy at 1 2 3. rewrite !negb_involutive.
  destruct (String.eqb (name_var a) "" || String.eqb (gender_var a) ""
            || String.eqb (state_var a) ""); [reflexivity |].
  unfold mbind at 1. unfold Py_bind at 1. unfold on_manager at 1.
  destruct (insert_student mi _ _ _ _ _ _) as [[[rowid |] | e] w];
    [| reflexivity | reflexivity].
  cbn [id_value truthy]. destruct (rowid =? 0); reflexivity.
Qed.

(** A save with the name, the gender or the state left empty shows one
    warning and does nothing else: no insertion is attempted, whatever the
    medium, and the inputs and the report stay as they are. *)
Theorem save_student_rejects_empty (mi mr : medium) (a : app) :
  name_var a = "" \/ gender_var a = "" \/ state_var a = "" ->
  save_student mi mr a =
    (Returns tt,
     with_manager
       (notified "Input Error"
          "Please fill in all mandatory fields (Name, Gender, State)."
          (app_manager a)) a).
Proof.
  intros H. rewrite save_student_run.
  assert (String.eqb (name_var a) "" || String.eqb (gender_var a) ""
          || String.eqb (state_var a) "" = true) as ->; [| reflexivity].
  destruct H as [-> | [-> | ->]]; rewrite ?orb_true_r; reflexivity.
Qed.

Lemma save_student_rejects_empty_witness :
  let a := App (Manager (Connection [] None) []) "Ada Obi" "Female" "" 1 1
             no_records in
  conn (app_manager (save_student healthy healthy a).2) = Connection [] None
  /\ name_var (save_student healthy healthy a).2 = "Ada Obi".
Proof.
  intros a. rewrite (save_student_rejects_empty healthy healthy a).
  - split; reflexivity.
  - right. right. reflexivity.
Defined.

Lemma nonempty_eqb (s : string) : s <> "" -> String.eqb s "" = false.
Proof. intros H. by apply String.eqb_neq. Qed.

(** A save whose insertion fails on the medium (flags within 64 bits) shows
    the error, leaves the durable table as it was and keeps every input as
    typed; the report is not refreshed. *)
Theorem save_student_failure_keeps_inputs (mi mr : medium) (a : app) :
  name_var a <> "" -> gender_var a <> "" -> state_var a <> "" ->
  int64 (dressed_var a) = true -> int64 (behaved_var a) = true ->
  on_execute mi <> None \/ on_commit mi <> None ->
  exists w',
    save_student mi mr a = (Returns tt, with_manager w' a)
    /\ committed (conn w') = committed (conn (app_manager a))
    /\ dialogs w'
       = dialogs (app_manager a) ++ [("Database Error", "Error inserting student: ")].
Proof.
  intros Hn Hg Hs Hd Hb Hm. rewrite save_student_run.
  rewrite !nonempty_eqb by assumption. simpl.
  destruct (insert_student_failure mi (name_var a) (gender_var a) (state_var a)
              (dressed_var a) (behaved_var a) (app_manager a) Hd Hb Hm)
    as (w' & -> & Hc & Hdlg).
  by exists w'.
Qed.

Lemma save_student_failure_keeps_inputs_witness :
  let locked := {| on_execute := Some false; on_commit := None; rowid_draws := [] |} in
  let a := App (Manager (Connection [] None) []) "Ada Obi" "Female" "OSUN" 1 1
             no_records in
  exists w', save_student locked healthy a = (Returns tt, with_manager w' a)
             /\ committed (conn w') = [].
Proof.
  intros locked a.
  destruct (save_student_failure_keeps_inputs locked healthy a)
    as (w' & Hrun & Hc & _); try discriminate; try reflexivity.
  - left. discriminate.
  - by exists w'.
Defined.

Lemma succ_rowid_positive (rows : list row) :
  Forall (fun r => 0 <= row_id r) rows -> 1 <= succ_rowid rows.
Proof.
  destruct rows as [| r rows]; [simpl; lia |].
  intros [Hr _]%Forall_cons.
  assert (row_id r < succ_rowid (r :: rows)); [| lia].
  apply succ_rowid_gt, list_elem_of_here.
Qed.

Lemma next_rowid_positive (draws : list Z) (rows : list row) (rowid : Z) :
  Forall (fun r => 0 <= row_id r) rows ->
  next_rowid draws rows = Some rowid -> 1 <= rowid.
Proof.
  intros Hrows. unfold next_rowid. destruct (succ_rowid rows <=? MAX_ROWID).
  - intros [= <-]. by apply succ_rowid_positive.
  - intros [_ Hunused]%find_some. unfold unused_rowid in Hunused.
    apply andb_prop in Hunused as [[H1 _]%andb_prop _]. by apply Z.leb_le.
Qed.

(** A save that succeeds, on a store without negative rowids: the record is
    committed, the success box names the text as typed and the new id, the
    report is refreshed, the name is cleared and both flags are reset, while
    the gender and the state stay selected. *)
Theorem save_student_success (mi mr : medium) (a : app) (rowid : Z) (w' : manager) :
  name_var a <> "" -> gender_var a <> "" -> state_var a <> "" ->
  Forall (fun r => 0 <= row_id r) (visible (conn (app_manager a))) ->
  insert_student mi (name_var a) (gender_var a) (state_var a)
    (dressed_var a) (behaved_var a) (app_manager a) = (Returns (Some rowid), w') ->
  exists a',
    save_student mi mr a = (Returns tt, a')
    /\ name_var a' = "" /\ dressed_var a' = 0 /\ behaved_var a' = 0
    /\ gender_var a' = gender_var a /\ state_var a' = state_var a
    /\ normalized rowid (name_var a) (gender_var a) (state_var a)
         (dressed_var a) (behaved_var a) ∈ committed (conn (app_manager a'))
    /\ ("Success", success_text (name_var a) rowid) ∈ dialogs (app_manager a')
    /\ match on_execute mr with
       | Some _ => report_text a' = no_records
       | None =>
           exists totals,
             report_text a'
             = Report (entry_of_row <$> committed (conn (app_manager a'))) totals
       end.
Proof.
  intros Hn Hg Hs Hpos Hrun. rewrite save_student_run.
  rewrite !nonempty_eqb by assumption. simpl. rewrite Hrun.
  pose proof (insert_student_committed _ _ _ _ _ _ _ _ _ Hrun) as [Hin Hp].
  apply insert_student_success in Hrun as (Hnext & Hw' & _).
  apply next_rowid_positive in Hnext; [| exact Hpos].
  destruct (Z.eqb_spec rowid 0) as [| _]; [lia |].
  set (a1 := with_manager (notified "Success" (success_text (name_var a) rowid) w') a).
  destruct (update_report_shows mr a1)
    as (a2 & Hupd & Hn2 & Hg2 & Hs2 & Hd2 & Hb2 & Hc2 & Hshown).
  unfold mbind, Py_bind. rewrite Hupd. unfold clear_inputs.
  eexists. split; [reflexivity |]. simpl.
  split; [reflexivity |]. split; [reflexivity |]. split; [reflexivity |].
  split; [exact Hg2 |]. split; [exact Hs2 |].
  simpl in Hc2. rewrite Hc2. split; [exact Hin |]. split.
  - destruct (update_report_run mr a1) as [totals Hrun2].
    rewrite Hrun2 in Hupd. clear Hrun2 Hshown.
    destruct (on_execute mr) as [rb |].
    + injection Hupd as <-. simpl. destruct rb; simpl;
        apply elem_of_app; left; apply elem_of_app; right; apply list_elem_of_here.
    + destruct (visible (conn (app_manager a1))); injection Hupd as <-; simpl;
        apply elem_of_app; right; apply list_elem_of_here.
  - assert (visible (conn (app_manager a1)) = committed (conn w')) as Hv.
    { simpl. unfold visible. simpl. by rewrite Hp. }
    rewrite Hv in Hshown.
    destruct (on_execute mr); [exact Hshown |].
    destruct (committed (conn w')) as [| r rows]; [by apply elem_of_nil in Hin |].
    exact Hshown.
Qed.

Lemma save_student_success_witness :
  let a := App (Manager (Connection [] None) []) " Ada Obi" "female" " osun " 1 1
             no_records in
  exists a',
    save_student healthy healthy a = (Returns tt, a')
    /\ name_var a' = "" /\ dressed_var a' = 0 /\ behaved_var a' = 0
    /\ gender_var a' = "female" /\ state_var a' = " osun "
    /\ Row 1 "Ada Obi" "Female" "OSUN" 1 1 ∈ committed (conn (app_manager a')).
Proof.
  intros a.
  destruct (save_student_success healthy healthy a 1
              (with_committed [normalized 1 " Ada Obi" "female" " osun " 1 1]
                 (Manager (Connection [] None) [])))
    as (a' & Hrun & Hn & Hd & Hb & Hg & Hs & Hin & _);
    try discriminate; try reflexivity.
  - constructor.
  - exists a'. repeat split; assumption.
Defined.

Lemma strip_all_space (s : string) : all_space s = true -> strip s = "".
Proof.
  intros H. unfold strip.
  assert (lstrip s = "") as ->; [| reflexivity].
  induction s as [| c s IH]; [reflexivity |]. simpl in *.
  apply andb_prop in H as [-> H]. by apply IH.
Qed.

(** The presence check looks at the text as typed: a name made of blanks
    only passes it, and on a healthy medium the record is committed with the
    empty name (and likewise an empty gender or state for a blank one). *)
Theorem save_student_accepts_blank_text (mr : medium) (a : app) :
  name_var a <> "" -> all_space (name_var a) = true ->
  gender_var a <> "" -> state_var a <> "" ->
  int64 (dressed_var a) = true -> int64 (behaved_var a) = true ->
  Forall (fun r => 0 <= row_id r) (visible (conn (app_manager a))) ->
  succ_rowid (visible (conn (app_manager a))) <= MAX_ROWID ->
  exists a' stored,
    save_student healthy mr a = (Returns tt, a')
    /\ stored ∈ committed (conn (app_manager a'))
    /\ row_id stored = succ_rowid (visible (conn (app_manager a)))
    /\ row_name stored = ""
    /\ (all_space (gender_var a) = true -> row_gender stored = "")
    /\ (all_space (state_var a) = true -> row_state stored = "")
    /\ ("Success", success_text (name_var a) (row_id stored))
         ∈ dialogs (app_manager a').
Proof.
  intros Hn Hblank Hg Hs Hd Hb Hpos Hmax.
  pose proof (insert_student_healthy (name_var a) (gender_var a) (state_var a)
                (dressed_var a) (behaved_var a) (app_manager a) Hd Hb Hmax) as Hrun.
  cbv zeta in Hrun.
  destruct (save_student_success healthy mr a _ _ Hn Hg Hs Hpos Hrun)
    as (a' & Hsave & _ & _ & _ & _ & _ & Hin & Hdlg & _).
  exists a', (normalized (succ_rowid (visible (conn (app_manager a))))
                (name_var a) (gender_var a) (state_var a)
                (dressed_var a) (behaved_var a)).
  split; [exact Hsave |]. split; [exact Hin |]. split; [reflexivity |]. simpl.
  split; [by apply strip_all_space |].
  split; [intros H; by rewrite (strip_all_space _ H) |].
  split; [intros H; by rewrite (strip_all_space _ H) | exact Hdlg].
Qed.

Lemma save_student_accepts_blank_text_witness :
  let a := App (Manager (Connection [] None) []) "   " "Male" "KANO" 0 0
             no_records in
  exists a' stored,
    save_student healthy healthy a = (Returns tt, a')
    /\ stored ∈ committed (conn (app_manager a'))
    /\ row_name stored = "".
Proof.
  intros a.
  destruct (save_student_accepts_blank_text healthy a)
    as (a' & stored & Hrun & Hin & _ & Hname & _);
    try discriminate; try reflexivity.
  - constructor.
  - by exists a', stored.
Defined.

(** Pressing save again right after a successful save stores nothing more:
    the name has been cleared, so the second call stops at the presence
    check, whatever the medium does. *)
Theorem save_twice_stores_once (mi mr mi' mr' : medium) (a : app)
    (rowid : Z) (w' : manager) :
  name_var a <> "" -> gender_var a <> "" -> state_var a <> "" ->
  Forall (fun r => 0 <= row_id r) (visible (conn (app_manager a))) ->
  insert_student mi (name_var a) (gender_var a) (state_var a)
    (dressed_var a) (behaved_var a) (app_manager a) = (Returns (Some rowid), w') ->
  exists a' a'',
    save_student mi mr a = (Returns tt, a')
    /\ save_student mi' mr' a' = (Returns tt, a'')
    /\ conn (app_manager a'') = conn (app_manager a')
    /\ dialogs (app_manager a'')
       = dialogs (app_manager a')
         ++ [("Input Error",
              "Please fill in all mandatory fields (Name, Gender, State).")].
Proof.
  intros Hn Hg Hs Hpos Hrun.
  destruct (save_student_success mi mr a rowid w' Hn Hg Hs Hpos Hrun)
    as (a' & Hsave & Hname & _).
  exists a'. eexists. split; [exact Hsave |].
  rewrite (save_student_rejects_empty mi' mr' a') by (by left).
  repeat split.
Qed.

Lemma save_twice_stores_once_witness :
  let a := App (Manager (Connection [] None) []) "Ada Obi" "Female" "OSUN" 1 1
             no_records in
  exists a' a'',
    save_student healthy healthy a = (Returns tt, a')
    /\ save_student healthy healthy a' = (Returns tt, a'')
    /\ conn (app_manager a'') = conn (app_manager a').
Proof.
  intros a.
  destruct (save_twice_stores_once healthy healthy healthy healthy a 1
              (with_committed [normalized 1 "Ada Obi" "Female" "OSUN" 1 1]
                 (Manager (Connection [] None) [])))
    as (a' & a'' & H1 & H2 & Hc & _); try discriminate; try reflexivity.
  - constructor.
  - by exists a', a''.
Defined.
